(** * Tourism Management System: user store, session and persistence

    A shallow embedding of [Tourism_Management_System.c].

    Conventions of the embedding.
    - The singly linked list of [struct user] nodes is a Rocq [list user];
      a pointer into the list is the suffix that starts at the node it
      points to, and [NULL] is [nil].
    - [char[100]] buffers holding NUL-terminated text are [string]s;
      [strcmp (a, b) == 0] is [String.eqb a b].  Inputs that overflow a
      buffer are outside the model (they are undefined behaviour in C).
    - [float] is IEEE-754 binary32 evaluated in its own precision
      ([FLT_EVAL_METHOD == 0]): a [spec_float] with 24 bits of precision
      and maximal exponent 128, with the operations of [SpecFloat].
    - [int] values are [Z]; [scanf ("%d")] of a value that does not fit an
      [int] is undefined behaviour in C and is not constrained here.
    - What [scanf] reads from the console is passed to each operation as
      an argument; what [printf] reports is the operation's result tag.
    - The file [users.txt] is the [disk : option string] of the globals:
      [None] when the file does not exist. *)

From Stdlib Require Import ZArith List String Ascii Bool Lia SpecFloat.
Import ListNotations.
Local Open Scope string_scope.
Local Open Scope Z_scope.

(** ** Single-precision floats *)

Definition float : Type := spec_float.

Definition prec : Z := 24.
Definition emax : Z := 128.

(** Conversion of an [int] (or of an integral literal such as [400000.0])
    to [float], rounding to nearest, ties to even. *)
Definition float_of_int (n : Z) : float := binary_normalize prec emax n 0 false.

(** [x * y] on floats. *)
Definition fmul (x y : float) : float := SFmul prec emax x y.

(** [x == y] on floats. *)
Definition feq (x y : float) : bool := SFeqb x y.

(** The literal [0.0]. *)
Definition fzero : float := S754_zero false.

(** The integer a float denotes, when it denotes one. *)
Definition float_int_value (f : float) : option Z :=
  match f with
  | S754_zero _ => Some 0
  | S754_finite s m e =>
      if 0 <=? e then Some (cond_Zopp s (Zpos m * 2 ^ e))
      else if Zpos m mod 2 ^ (- e) =? 0
           then Some (cond_Zopp s (Zpos m / 2 ^ (- e)))
           else None
  | _ => None
  end.

(** ** Characters and decimal text *)

Definition isspace (c : ascii) : bool :=
  let n := N_of_ascii c in
  (N.eqb n 32 || (N.leb 9 n && N.leb n 13))%bool.

Definition isdigit (c : ascii) : bool :=
  let n := N_of_ascii c in (N.leb 48 n && N.leb n 57)%bool.

Definition digit_value (c : ascii) : Z := Z.of_N (N_of_ascii c) - 48.

Definition digit_char (d : Z) : ascii := ascii_of_N (Z.to_N (48 + d)).

(** Decimal digits of a non-negative number, most significant first;
    [fuel] bounds the number of digits produced. *)
Fixpoint dec_digits (fuel : nat) (n : Z) (acc : string) : string :=
  match fuel with
  | O => acc
  | S fuel' =>
      let acc' := String (digit_char (n mod 10)) acc in
      if n / 10 =? 0 then acc' else dec_digits fuel' (n / 10) acc'
  end.

Definition dec_of_nonneg (n : Z) : string :=
  dec_digits (S (Z.to_nat (Z.log2 n))) n "".

(** [printf ("%d", n)]. *)
Definition fmt_d (n : Z) : string :=
  if n <? 0 then String "-" (dec_of_nonneg (- n)) else dec_of_nonneg n.

(** The [k] low decimal digits of [n], zero padded. *)
Fixpoint dec_fixed (k : nat) (n : Z) (acc : string) : string :=
  match k with
  | O => acc
  | S k' => dec_fixed k' (n / 10) (String (digit_char (n mod 10)) acc)
  end.

(** Quotient [a / b] rounded to the nearest integer, ties to even,
    for [0 <= a] and [0 < b]. *)
Definition div_nearest_even (a b : Z) : Z :=
  let q := a / b in
  let r := a mod b in
  match 2 * r ?= b with
  | Lt => q
  | Gt => q + 1
  | Eq => if Z.even q then q else q + 1
  end.

(** [printf ("%f", x)]: the value in decimal with six digits after the
    point, correctly rounded. *)
Definition fmt_f (x : float) : string :=
  match x with
  | S754_nan => "nan"
  | S754_infinity s => if s then "-inf" else "inf"
  | S754_zero s => if s then "-0.000000" else "0.000000"
  | S754_finite s m e =>
      let scaled :=
        if 0 <=? e then Zpos m * 2 ^ e * 1000000
        else div_nearest_even (Zpos m * 1000000) (2 ^ (- e)) in
      (if s then "-" else "") ++
      dec_of_nonneg (scaled / 1000000) ++ "." ++ dec_fixed 6 (scaled mod 1000000) ""
  end.

(** ** Reading formatted text ([fscanf] directives) *)

(** Outcome of one conversion directive on the unread input. *)
Inductive conv (A : Type) : Type :=
| Conv (v : A) (rest : string)   (* converted, [rest] remains unread *)
| MatchFail (rest : string)      (* matching failure *)
| InputFail.                     (* end of input before any character *)
Arguments Conv {A} v rest.
Arguments MatchFail {A} rest.
Arguments InputFail {A}.

(** White space in a format, and the white space skipped before a
    [%s], [%f] or [%d] item. *)
Fixpoint skip_ws (s : string) : string :=
  match s with
  | String c r => if isspace c then skip_ws r else s
  | EmptyString => s
  end.

(** The longest run of non-white-space characters. *)
Fixpoint read_nonws (s : string) : string * string :=
  match s with
  | String c r =>
      if isspace c then ("", s)
      else let (w, r') := read_nonws r in (String c w, r')
  | EmptyString => ("", "")
  end.

(** [%s]. *)
Definition scan_s (s : string) : conv string :=
  match skip_ws s with
  | EmptyString => InputFail
  | s' => let (w, r) := read_nonws s' in Conv w r
  end.

(** The longest run of decimal digits: its value, its length, the rest. *)
Fixpoint read_digits (s : string) (acc : Z) (len : Z) : Z * Z * string :=
  match s with
  | String c r =>
      if isdigit c then read_digits r (10 * acc + digit_value c) (len + 1)
      else (acc, len, s)
  | EmptyString => (acc, len, s)
  end.

(** An optional sign: [true] for [-]. *)
Definition read_sign (s : string) : bool * string :=
  match s with
  | String c r =>
      if Ascii.eqb c "-" then (true, r)
      else if Ascii.eqb c "+" then (false, r)
      else (false, s)
  | EmptyString => (false, s)
  end.

(** [%d]. *)
Definition scan_d (s : string) : conv Z :=
  match skip_ws s with
  | EmptyString => InputFail
  | s' =>
      let (neg, s1) := read_sign s' in
      let '(v, len, r) := read_digits s1 0 0 in
      if len =? 0 then MatchFail r
      else Conv (if neg then - v else v) r
  end.

Definition lower (c : ascii) : ascii :=
  let n := N_of_ascii c in
  if (N.leb 65 n && N.leb n 90)%bool then ascii_of_N (n + 32) else c.

(** Consumes the longest prefix of the input that matches a prefix of
    [word], letter case ignored; returns how much of [word] was matched. *)
Fixpoint read_word (word s : string) (len : nat) : nat * string :=
  match word, s with
  | String w word', String c r =>
      if Ascii.eqb (lower c) w then read_word word' r (S len) else (len, s)
  | _, _ => (len, s)
  end.

Definition isalnum_ (c : ascii) : bool :=
  let n := N_of_ascii (lower c) in
  (isdigit c || (N.leb 97 n && N.leb n 122) || N.eqb n 95)%bool.

Fixpoint skip_nchars (s : string) : string :=
  match s with
  | String c r => if isalnum_ c then skip_nchars r else s
  | EmptyString => s
  end.

(** The float nearest to [(-1)^neg * n * 10^e10]. *)
Definition float_of_decimal (neg : bool) (n : Z) (e10 : Z) : float :=
  match n with
  | Zpos p =>
      if 0 <=? e10 then binary_normalize prec emax (cond_Zopp neg (n * 10 ^ e10)) 0 neg
      else SFdiv prec emax (S754_finite neg p 0)
                           (S754_finite false (Z.to_pos (10 ^ (- e10))) 0)
  | _ => S754_zero neg
  end.

(** The exponent part of a decimal number, after its [e]. *)
Definition scan_exponent (neg : bool) (m flen : Z) (s : string) : conv float :=
  let (eneg, s1) := read_sign s in
  let '(ev, elen, s2) := read_digits s1 0 0 in
  if elen =? 0 then MatchFail s2
  else Conv (float_of_decimal neg m ((if eneg then - ev else ev) - flen)) s2.

(** Digits, an optional point and digits, an optional exponent. *)
Definition scan_decimal (neg : bool) (s : string) : conv float :=
  let '(ip, ilen, s1) := read_digits s 0 0 in
  let '(m, flen, s2) :=
    match s1 with
    | String c r => if Ascii.eqb c "." then read_digits r ip 0 else (ip, 0, s1)
    | EmptyString => (ip, 0, s1)
    end in
  if ilen + flen =? 0 then MatchFail s2
  else
    match s2 with
    | String x r =>
        if Ascii.eqb (lower x) "e" then scan_exponent neg m flen r
        else Conv (float_of_decimal neg m (- flen)) s2
    | EmptyString => Conv (float_of_decimal neg m (- flen)) s2
    end.

(** [inf] and [infinity]. *)
Definition scan_inf (neg : bool) (s : string) : conv float :=
  let (k, r) := read_word "infinity" s O in
  if (Nat.eqb k 3 || Nat.eqb k 8)%bool then Conv (S754_infinity neg) r
  else MatchFail r.

(** [nan] and [nan(...)]. *)
Definition scan_nan (s : string) : conv float :=
  let (k, r) := read_word "nan" s O in
  if Nat.eqb k 3 then
    match r with
    | String c r1 =>
        if Ascii.eqb c "(" then
          match skip_nchars r1 with
          | String d r2 =>
              if Ascii.eqb d ")" then Conv S754_nan r2 else MatchFail (String d r2)
          | EmptyString => MatchFail ""
          end
        else Conv S754_nan r
    | EmptyString => Conv S754_nan r
    end
  else MatchFail r.

(** [%f] on decimal input and on the words [inf], [infinity], [nan] and
    [nan(...)].  The input item is the longest prefix of a well-formed
    number; an item that is not itself well formed is a matching
    failure.  The hexadecimal form [0x...] is not modelled: it is read as
    the [0] it starts with. *)
Definition scan_f (s : string) : conv float :=
  match skip_ws s with
  | EmptyString => InputFail
  | s' =>
      let (neg, s1) := read_sign s' in
      match s1 with
      | String c _ =>
          if (isdigit c || Ascii.eqb c ".")%bool then scan_decimal neg s1
          else if Ascii.eqb (lower c) "i" then scan_inf neg s1
          else if Ascii.eqb (lower c) "n" then scan_nan s1
          else MatchFail s1
      | EmptyString => MatchFail s1
      end
  end.

(** The unread input after a conversion is no longer than before it. *)
Definition conv_shorter {A : Type} (c : conv A) (s : string) : Prop :=
  match c with
  | Conv _ r | MatchFail r => (String.length r <= String.length s)%nat
  | InputFail => True
  end.

(** ** Data model *)

(** [enum status]. *)
Inductive status : Type := menu | loggedIn.

(** [struct user]; the [next] field is the tail of the list the record
    sits in. *)
Record user : Type := mkUser {
  username : string;
  password : string;
  place : string;
  price : float;
  numberTicket : Z
}.

(** The two globals of the program and the file it persists to. *)
Record globals : Type := mkGlobals {
  currentStatus : status;
  currentUser : string;
  disk : option string
}.

Definition set_username (w : string) (u : user) : user :=
  mkUser w (password u) (place u) (price u) (numberTicket u).
Definition set_password (w : string) (u : user) : user :=
  mkUser (username u) w (place u) (price u) (numberTicket u).
Definition set_place (w : string) (u : user) : user :=
  mkUser (username u) (password u) w (price u) (numberTicket u).
Definition set_price (x : float) (u : user) : user :=
  mkUser (username u) (password u) (place u) x (numberTicket u).
Definition set_numberTicket (n : Z) (u : user) : user :=
  mkUser (username u) (password u) (place u) (price u) n.

Definition set_disk (text : string) (g : globals) : globals :=
  mkGlobals (currentStatus g) (currentUser g) (Some text).

(** The loop shared by [checkTicket], [booking], [cancellation] and
    [changePassword]: the first node whose username is [name]. *)
Fixpoint find_user (name : string) (userptr : list user) : option user :=
  match userptr with
  | [] => None
  | u :: next =>
      if String.eqb (username u) name then Some u else find_user name next
  end.

(** The list after the node found by that loop was overwritten by [u']. *)
Fixpoint store_user (name : string) (u' : user) (userptr : list user) : list user :=
  match userptr with
  | [] => []
  | u :: next =>
      if String.eqb (username u) name then u' :: next
      else u :: store_user name u' next
  end.

(** ** Persistence *)

Definition newline : string := String "010" "".

(** One [fprintf (fp, "%s %s %s %f %d\n", ...)]. *)
Definition record_line (u : user) : string :=
  username u ++ " " ++ password u ++ " " ++ place u ++ " " ++
  fmt_f (price u) ++ " " ++ fmt_d (numberTicket u) ++ newline.

Fixpoint file_text (userptr : list user) : string :=
  match userptr with
  | [] => ""
  | u :: next => record_line u ++ file_text next
  end.

(** [filing]: the file is truncated and rewritten from the list. *)
Definition filing (userptr : list user) (g : globals) : globals :=
  set_disk (file_text userptr) g.

(** Value returned by [fscanf]. *)
Inductive scan_count : Type :=
| ScanEOF
| Assigned (n : nat).

(** [fscanf (fp, "%s %s %s %f %d", temp.username, temp.password,
    temp.place, &temp.price, &temp.numberTicket)] on the unread input:
    the returned count, [temp] afterwards, the input left unread.  The
    fields of [temp] that are not assigned keep their previous value. *)
Definition fscanf_user (inp : string) (temp : user) : scan_count * user * string :=
  match scan_s inp with
  | InputFail => (ScanEOF, temp, "")
  | MatchFail r => (Assigned 0, temp, r)
  | Conv w1 r1 =>
    let t1 := set_username w1 temp in
    match scan_s (skip_ws r1) with
    | InputFail => (Assigned 1, t1, "")
    | MatchFail r => (Assigned 1, t1, r)
    | Conv w2 r2 =>
      let t2 := set_password w2 t1 in
      match scan_s (skip_ws r2) with
      | InputFail => (Assigned 2, t2, "")
      | MatchFail r => (Assigned 2, t2, r)
      | Conv w3 r3 =>
        let t3 := set_place w3 t2 in
        match scan_f (skip_ws r3) with
        | InputFail => (Assigned 3, t3, "")
        | MatchFail r => (Assigned 3, t3, r)
        | Conv x r4 =>
          let t4 := set_price x t3 in
          match scan_d (skip_ws r4) with
          | InputFail => (Assigned 4, t4, "")
          | MatchFail r => (Assigned 4, t4, r)
          | Conv n r5 => (Assigned 5, set_numberTicket n t4, r5)
          end
        end
      end
    end
  end.

(** The reading loop of [initializeUser]: one node, a copy of [temp],
    for every [fscanf] that does not return [EOF].  [None] when [fuel]
    iterations were not enough. *)
Fixpoint read_users (fuel : nat) (inp : string) (temp : user) : option (list user) :=
  match fuel with
  | O => None
  | S fuel' =>
      match fscanf_user inp temp with
      | (ScanEOF, _, _) => Some []
      | (Assigned _, temp', rest) =>
          option_map (cons temp') (read_users fuel' rest temp')
      end
  end.

Inductive loaded : Type :=
| Loaded (head : list user)
| Uninitialised   (* the function returns [tempptr] without having set it *)
| OutOfFuel.

(** [initializeUser]; [temp] is the indeterminate initial content of the
    local [temp]. *)
Definition initializeUser (userptr : list user) (temp : user) (g : globals) : loaded :=
  match disk g with
  | None => Loaded []
  | Some EmptyString => Loaded []
  | Some text =>
      match read_users (S (String.length text)) text temp with
      | None => OutOfFuel
      | Some nodes =>
          match userptr, nodes with
          | [], _ :: _ => Loaded nodes
          | _, _ => Uninitialised
          end
      end
  end.

(** ** Registration and login *)

Inductive add_result : Type :=
| UsernameExists      (* "Error: Username already exists!" *)
| AccountCreated.     (* "User account created successfully!" *)

(** The node [addUser] links at the end of the list. *)
Definition new_user (name pass : string) : user :=
  mkUser name pass "N/A" fzero 0.

(** The duplicate check of [addUser]. *)
Fixpoint username_taken (name : string) (userptr : list user) : bool :=
  match userptr with
  | [] => false
  | u :: next =>
      if String.eqb (username u) name then true else username_taken name next
  end.

(** [addUser]: returns the head of the list. *)
Definition addUser (userptr : list user) (name pass : string) (g : globals)
  : list user * globals * add_result :=
  if username_taken name userptr then (userptr, g, UsernameExists)
  else
    let tempptr := (userptr ++ [new_user name pass])%list in
    (tempptr, filing tempptr g, AccountCreated).

Inductive login_result : Type :=
| LoginSuccessful     (* "Login successful!" *)
| WrongPassword       (* "Wrong Password! Access denied." *)
| UserNotFound.       (* "User not found! Please register first." *)

(** [login]: returns the node it stopped at, [NULL] when there is none. *)
Fixpoint login (userptr : list user) (name pass : string) (g : globals)
  : list user * globals * login_result :=
  match userptr with
  | [] => ([], g, UserNotFound)
  | u :: next =>
      if (String.eqb (username u) name && String.eqb (password u) pass)%bool then
        (userptr, mkGlobals loggedIn name (disk g), LoginSuccessful)
      else if (String.eqb (username u) name && negb (String.eqb (password u) pass))%bool then
        (userptr, g, WrongPassword)
      else login next name pass g
  end.

Inductive logout_result : Type :=
| NotLoggedIn         (* "Error: No user is currently logged in." *)
| LoggedOut.          (* "You have been successfully logged out." *)

Definition logout (g : globals) : globals * logout_result :=
  match currentStatus g with
  | menu => (g, NotLoggedIn)
  | loggedIn =>
      if String.eqb (currentUser g) "" then (g, NotLoggedIn)
      else (mkGlobals menu "" (disk g), LoggedOut)
  end.

(** ** Booking, total and cancellation *)

Definition placeList : list string :=
  ["Paris, France"; "Tokyo, Japan"; "Bangkok, Thailand"; "Abu Dhabi, UAE";
   "Miami, USA"; "Rome, Italy"; "Munich, Germany"; "Madrid, Spain";
   "Istanbul, Turkey"; "Gilgit, Pakistan"].

(** The literals of [priceList], in rupees. *)
Definition tour_prices : list Z :=
  [400000; 600000; 250000; 380000; 120000;
   100000; 300000; 320000; 450000; 75000].

Definition priceList : list float := map float_of_int tour_prices.

(** [priceList[i]] and [placeList[i]]. *)
Definition package (i : nat) : float * string :=
  (nth i priceList fzero, nth i placeList "").

(** The chain of [strcmp (place, "1") == 0], ..., mapping the code typed
    by the user to a price and a destination. *)
Definition tour_of_code (code : string) : option (float * string) :=
  if String.eqb code "1" then Some (package 0)
  else if String.eqb code "2" then Some (package 1)
  else if String.eqb code "3" then Some (package 2)
  else if String.eqb code "4" then Some (package 3)
  else if String.eqb code "5" then Some (package 4)
  else if String.eqb code "6" then Some (package 5)
  else if String.eqb code "7" then Some (package 6)
  else if String.eqb code "8" then Some (package 7)
  else if String.eqb code "9" then Some (package 8)
  else if String.eqb code "10" then Some (package 9)
  else None.

Inductive booking_result : Type :=
| BookingNoUser       (* the current user is not in the list *)
| AlreadyBooked       (* "You already have an active booking. ..." *)
| NotConfirmed        (* the confirmation was not '1' *)
| InvalidTourCode     (* "Invalid tour code number entered!" *)
| ZeroTickets         (* the number of tickets is zero *)
| BookingCompleted.   (* "Booking completed successfully!" *)

(** [booking]. [code] and [choice] are what the two [scanf]s read;
    [tickets] is what [scanf ("%d", &userptr->numberTicket)] converts,
    [None] when it converts nothing and leaves the field as it was. *)
Definition booking (userptr : list user) (code : string) (choice : ascii)
    (tickets : option Z) (g : globals) : list user * globals * booking_result :=
  match find_user (currentUser g) userptr with
  | None => (userptr, g, BookingNoUser)
  | Some u =>
      if negb (feq (price u) fzero) then (userptr, g, AlreadyBooked)
      else if negb (Ascii.eqb choice "1") then (userptr, g, NotConfirmed)
      else
        match tour_of_code code with
        | None => (userptr, g, InvalidTourCode)
        | Some (tour_price, tour_place) =>
            let u1 :=
              match tickets with
              | Some n => set_numberTicket n u
              | None => u
              end in
            if numberTicket u1 =? 0 then
              (store_user (currentUser g) u1 userptr, g, ZeroTickets)
            else
              let u2 := set_price tour_price (set_place tour_place u1) in
              let tempptr := store_user (currentUser g) u2 userptr in
              (tempptr, filing tempptr g, BookingCompleted)
        end
  end.

Inductive ticket_result : Type :=
| NullUser            (* [userptr->place] is read through [NULL] *)
| NoTicketBooked      (* "No ticket booked!" *)
| TicketTotal (n : Z) (total : float) (destination : string).

(** [checkTicket]. *)
Definition checkTicket (userptr : list user) (g : globals) : ticket_result :=
  match find_user (currentUser g) userptr with
  | None => NullUser
  | Some u =>
      if (String.eqb (place u) "" || feq (price u) fzero || (numberTicket u =? 0))%bool
      then NoTicketBooked
      else TicketTotal (numberTicket u)
                       (fmul (price u) (float_of_int (numberTicket u)))
                       (place u)
  end.

(** The chain of [strcmp]s of [cancellation]: the value of [flag] after
    it, [None] when the function returns from the last [else]. *)
Definition cancel_flag (p : string) : option Z :=
  let flag := -1 in
  if String.eqb p "Paris, France" then Some (flag + 1)
  else if String.eqb p "Tokyo, Japan" then Some (flag + 1)
  else if String.eqb p "Bangkok, Thailand" then Some (flag + 1)
  else if String.eqb p "Abu Dhabi, UAE" then Some (flag + 1)
  else if String.eqb p "Miami, USA" then Some (flag + 1)
  else if String.eqb p "Rome, Italy" then Some (flag + 1)
  else if String.eqb p "Munich, Germany" then Some (flag + 1)
  else if String.eqb p "Madrid, Spain" then Some (flag + 1)
  else if String.eqb p "Istanbul, Turkey" then Some (flag + 1)
  else if String.eqb p "Gilgit, Pakistan" then Some (flag + 1)
  else None.

Inductive cancel_result : Type :=
| CancelUserNotFound  (* "User not found in the system!" *)
| NoTourBooked        (* "No tour has been booked to cancel!" *)
| NothingDone         (* [flag] is not 0 *)
| Cancelled (destination : string) (n : Z) (refund : float).

(** [cancellation]. *)
Definition cancellation (userptr : list user) (g : globals)
  : list user * globals * cancel_result :=
  match find_user (currentUser g) userptr with
  | None => (userptr, g, CancelUserNotFound)
  | Some u =>
      match cancel_flag (place u) with
      | None => (userptr, g, NoTourBooked)
      | Some flag =>
          if flag =? 0 then
            let refund := fmul (price u) (float_of_int (numberTicket u)) in
            let u' := set_numberTicket 0 (set_price fzero (set_place "N/A" u)) in
            let tempptr := store_user (currentUser g) u' userptr in
            (tempptr, filing tempptr g,
             Cancelled (place u) (numberTicket u) refund)
          else (userptr, g, NothingDone)
      end
  end.

Inductive password_result : Type :=
| PasswordNoUser      (* the current user is not in the list *)
| PasswordUpdated     (* "Password updated successfully!" *)
| IncorrectPassword.  (* "Incorrect password provided. ..." *)

(** [changePassword]: the file is rewritten on both outcomes. *)
Definition changePassword (userptr : list user) (passCurrent passNew : string)
    (g : globals) : list user * globals * password_result :=
  match find_user (currentUser g) userptr with
  | None => (userptr, g, PasswordNoUser)
  | Some u =>
      if String.eqb passCurrent (password u) then
        let tempptr := store_user (currentUser g) (set_password passNew u) userptr in
        (tempptr, filing tempptr g, PasswordUpdated)
      else (userptr, filing userptr g, IncorrectPassword)
  end.

(** ** The menu loop of [main] *)

(** What the user types after the menu selection, for the [scanf]s of
    the operation selected. *)
Record console : Type := mkConsole {
  typed_name : string;
  typed_pass : string;
  typed_code : string;
  typed_choice : ascii;
  typed_tickets : option Z;
  typed_new_pass : string
}.

(** One iteration of [while (1)] in [main] with menu selection [choice]:
    the list head held by [main] and the globals afterwards, [None] when
    the program ends. *)
Definition main_step (choice : Z) (c : console) (userptr : list user) (g : globals)
  : option (list user * globals) :=
  match currentStatus g with
  | menu =>
      match choice with
      | 1 => let '(p, g', _) := addUser userptr (typed_name c) (typed_pass c) g in
             Some (p, g')
      | 2 => let '(p, g', _) := login userptr (typed_name c) (typed_pass c) g in
             Some (p, g')
      | 3 => Some (userptr, g)
      | 4 => None
      | _ => Some (userptr, g)
      end
  | loggedIn =>
      match choice with
      | 1 => let '(p, g', _) :=
               booking userptr (typed_code c) (typed_choice c) (typed_tickets c) g in
             Some (p, g')
      | 2 => match checkTicket userptr g with
             | NullUser => None
             | _ => Some (userptr, g)
             end
      | 3 => let '(p, g', _) := cancellation userptr g in Some (p, g')
      | 4 => let '(p, g', _) :=
               changePassword userptr (typed_pass c) (typed_new_pass c) g in
             Some (p, g')
      | 5 => Some (userptr, fst (logout g))
      | 6 => Some (userptr, g)
      | 7 => None
      | _ => Some (userptr, g)
      end
  end.

(** ** Predicates of the specification *)

(** The record has no active booking: the triple [("N/A", 0, 0)]. *)
Definition no_booking (u : user) : bool :=
  (String.eqb (place u) "N/A" && feq (price u) fzero && (numberTicket u =? 0))%bool.

(** The place is the sentinel iff the price is zero iff the ticket count
    is zero. *)
Definition booking_invariant (u : user) : bool :=
  (Bool.eqb (String.eqb (place u) "N/A") (feq (price u) fzero) &&
   Bool.eqb (feq (price u) fzero) (numberTicket u =? 0))%bool.

(** The record [cancellation] leaves in place of [u]. *)
Definition cleared (u : user) : user :=
  mkUser (username u) (password u) "N/A" fzero 0.

(** The place is one of the ten destinations. *)
Definition is_destination (p : string) : bool :=
  existsb (String.eqb p) placeList.

(** A text that [%s] reads back whole: not empty, no white space. *)
Fixpoint no_space (w : string) : bool :=
  match w with
  | String c r => (negb (isspace c) && no_space r)%bool
  | EmptyString => true
  end.

Definition is_token (w : string) : bool :=
  (negb (String.eqb w "") && no_space w)%bool.

(** A record the file format holds without loss: no text field is empty
    or contains white space, and the price is zero or one of the table. *)
Definition plain_record (u : user) : Prop :=
  is_token (username u) = true /\
  is_token (password u) = true /\
  is_token (place u) = true /\
  In (price u) (fzero :: priceList).

(** [test] holds of every integer from [-k] to [k]. *)
Fixpoint all_within (k : nat) (test : Z -> bool) : bool :=
  match k with
  | O => test 0
  | S k' =>
      (test (Z.of_nat k) && test (- Z.of_nat k) && all_within k' test)%bool
  end.

(** The float product of price [p] and [n] tickets is the integer [p * n]. *)
Definition total_is_exact (p n : Z) : bool :=
  match float_int_value (fmul (float_of_int p) (float_of_int n)) with
  | Some v => v =? p * n
  | None => false
  end.

(** ** Runs of the menu loop *)

(** The iterations of [while (1)] in [main] for the selections and the
    console input of [steps], in order; [None] once the program ended. *)
Fixpoint run (steps : list (Z * console)) (userptr : list user) (g : globals)
  : option (list user * globals) :=
  match steps with
  | [] => Some (userptr, g)
  | (choice, c) :: rest =>
      match main_step choice c userptr g with
      | Some (p, g') => run rest p g'
      | None => None
      end
  end.

(** While a user is logged in, the list held by [main] starts at a record
    of that user. *)
Definition session_ok (userptr : list user) (g : globals) : Prop :=
  currentStatus g = loggedIn ->
  exists u next, userptr = u :: next /\ username u = currentUser g.

(** [showMenu]: what its [printf]s write, in order, between clearing the
    screen and pausing. *)
Definition showMenu : list string :=
  [newline ++ "MENU" ++ newline ++ newline;
   "1. Paris, France    - Rs 400000" ++ newline;
   "2. Tokyo, Japan     - Rs 600000" ++ newline;
   "3. Bangkok, Thailand- Rs 250000" ++ newline;
   "4. Abu Dhabi, UAE   - Rs 380000" ++ newline;
   "5. Miami, USA       - Rs 120000" ++ newline;
   "6. Rome, Italy      - Rs 100000" ++ newline;
   "7. Munich, Germany  - Rs 300000" ++ newline;
   "8. Madrid, Spain    - Rs 320000" ++ newline;
   "9. Istanbul, Turkey - Rs 450000" ++ newline;
   "10. Gilgit, Pakistan- Rs 75000" ++ newline].

(** A run of blanks. *)
Fixpoint blanks (k : nat) : string :=
  match k with
  | O => ""
  | S k' => String " " (blanks k')
  end.

(** Sample data. *)
Definition startup : globals := mkGlobals menu "" None.
Definition alice_session (text : option string) : globals :=
  mkGlobals loggedIn "alice" text.
Definition alice : user := new_user "alice" "pw1".
Definition bob : user := new_user "bob" "pw2".
Definition alice_bangkok : user :=
  mkUser "alice" "pw1" "Bangkok, Thailand" (float_of_int 250000) 2.

(** * Properties *)

(** Splits on the outcome of the next [strcmp] of [s] with a literal. *)
Ltac case_strcmp s :=
  match goal with
  | |- context [String.eqb s ?lit] => destruct (String.eqb s lit)
  end.

(** ** The list traversals *)

Lemma username_taken_In :
  forall name userptr u,
    In u userptr -> username u = name -> username_taken name userptr = true.
Proof.
  intros name userptr u Hin Hname.
  induction userptr as [|v next IH]; simpl in *; [contradiction|].
  destruct Hin as [->|Hin].
  - rewrite Hname, String.eqb_refl. reflexivity.
  - destruct (String.eqb (username v) name); auto.
Qed.

Lemma find_user_username :
  forall name userptr u, find_user name userptr = Some u -> username u = name.
Proof.
  intros name userptr u; induction userptr as [|v next IH]; simpl; [discriminate|].
  destruct (String.eqb (username v) name) eqn:E; [|exact IH].
  intros [= <-]. apply String.eqb_eq, E.
Qed.

Lemma find_user_In :
  forall name userptr u, find_user name userptr = Some u -> In u userptr.
Proof.
  intros name userptr u; induction userptr as [|v next IH]; simpl; [discriminate|].
  destruct (String.eqb (username v) name); [intros [= <-]; auto | auto].
Qed.

Lemma store_user_same :
  forall name userptr u,
    find_user name userptr = Some u -> store_user name u userptr = userptr.
Proof.
  intros name userptr u; induction userptr as [|v next IH]; simpl; [reflexivity|].
  destruct (String.eqb (username v) name).
  - intros [= ->]; reflexivity.
  - intros H; rewrite (IH H); reflexivity.
Qed.

Lemma find_user_store :
  forall name userptr u u',
    find_user name userptr = Some u -> username u' = name ->
    find_user name (store_user name u' userptr) = Some u'.
Proof.
  intros name userptr u u' Hfind Hname.
  induction userptr as [|v next IH]; simpl in *; [discriminate|].
  destruct (String.eqb (username v) name) eqn:E; simpl.
  - rewrite Hname, String.eqb_refl; reflexivity.
  - rewrite E; auto.
Qed.

(** [login] walks to the first node carrying the username and returns it,
    whatever the password. *)
Lemma login_stops_at_match :
  forall before u after name pass g,
    username u = name ->
    username_taken name before = false ->
    fst (fst (login (before ++ u :: after) name pass g)) = u :: after /\
    snd (login (before ++ u :: after) name pass g) =
      (if String.eqb (password u) pass then LoginSuccessful else WrongPassword).
Proof.
  intros before u after name pass g Hname.
  induction before as [|v before IH]; simpl; intros Hfree.
  - rewrite Hname, String.eqb_refl; simpl.
    destruct (String.eqb (password u) pass); simpl; auto.
  - destruct (String.eqb (username v) name); [discriminate|]. simpl. auto.
Qed.

Lemma login_no_match :
  forall userptr name pass g,
    username_taken name userptr = false ->
    login userptr name pass g = ([], g, UserNotFound).
Proof.
  intros userptr name pass g; induction userptr as [|v next IH]; simpl; [reflexivity|].
  destruct (String.eqb (username v) name); [discriminate|]. simpl. exact IH.
Qed.

(** A list in which [name] occurs splits at its first occurrence. *)
Lemma username_taken_split :
  forall name userptr,
    username_taken name userptr = true ->
    exists before u after,
      userptr = (before ++ u :: after)%list /\ username u = name /\
      username_taken name before = false.
Proof.
  intros name userptr; induction userptr as [|v next IH]; simpl; [discriminate|].
  destruct (String.eqb (username v) name) eqn:E.
  - intros _. exists [], v, next. repeat split. apply String.eqb_eq, E.
  - intros H. destruct (IH H) as (before & u & after & -> & Hu & Hb).
    exists (v :: before), u, after. repeat split; auto. simpl. rewrite E. exact Hb.
Qed.

(** ** Registration and login *)

(** C5: registering a username that some record of the list already
    carries reports [UsernameExists] and returns the list and the
    globals, file included, as they were. *)
Theorem addUser_existing_username :
  forall (userptr : list user) (name pass : string) (g : globals) (u : user),
    In u userptr -> username u = name ->
    addUser userptr name pass g = (userptr, g, UsernameExists).
Proof.
  intros userptr name pass g u Hin Hname. unfold addUser.
  rewrite (username_taken_In name userptr u Hin Hname). reflexivity.
Qed.

Lemma addUser_existing_username_witness :
  addUser [alice; bob] "bob" "other" startup = ([alice; bob], startup, UsernameExists).
Proof.
  apply (addUser_existing_username [alice; bob] "bob" "other" startup bob).
  - simpl. right. left. reflexivity.
  - reflexivity.
Defined.

(** C6: when the list holds a record with the username and no record
    with that username has the password typed, [login] reports
    [WrongPassword], not [UserNotFound], and stays in the [menu] state. *)
Theorem login_wrong_password :
  forall (userptr : list user) (name pass : string) (g : globals),
    (exists u, In u userptr /\ username u = name) ->
    (forall u, In u userptr -> username u = name -> password u <> pass) ->
    snd (login userptr name pass g) = WrongPassword /\
    snd (login userptr name pass g) <> UserNotFound /\
    snd (fst (login userptr name pass g)) = g.
Proof.
  intros userptr name pass g [u [Hin Hname]] Hpass.
  induction userptr as [|v next IH]; [contradiction|].
  simpl. destruct (String.eqb (username v) name) eqn:Ev; simpl.
  - apply String.eqb_eq in Ev.
    destruct (String.eqb (password v) pass) eqn:Ep; simpl.
    + apply String.eqb_eq in Ep. exfalso. apply (Hpass v); simpl; auto.
    + repeat split; discriminate.
  - destruct Hin as [->|Hin].
    + rewrite Hname, String.eqb_refl in Ev. discriminate.
    + apply IH; [exact Hin|]. intros w Hw. apply Hpass. right. exact Hw.
Qed.

Lemma login_wrong_password_witness :
  snd (login [bob; alice] "alice" "guess" startup) = WrongPassword /\
  snd (login [bob; alice] "alice" "guess" startup) <> UserNotFound /\
  snd (fst (login [bob; alice] "alice" "guess" startup)) = startup.
Proof.
  apply (login_wrong_password [bob; alice] "alice" "guess" startup).
  - exists alice. split; [simpl; auto | reflexivity].
  - intros u [<-|[<-|[]]]; simpl; discriminate.
Defined.

(** C7: when [addUser] creates the account, [login] with the same
    username and password on the list it returned succeeds and returns
    the node [addUser] linked in, the last of the list, and makes that
    user the current one. *)
Theorem login_after_addUser :
  forall (userptr : list user) (name pass : string) (g : globals)
         (userptr' : list user) (g' : globals),
    addUser userptr name pass g = (userptr', g', AccountCreated) ->
    userptr' = (userptr ++ [new_user name pass])%list /\
    login userptr' name pass g' =
      ([new_user name pass], mkGlobals loggedIn name (disk g'), LoginSuccessful).
Proof.
  intros userptr name pass g userptr' g'. unfold addUser.
  destruct (username_taken name userptr) eqn:Hfree; [discriminate|].
  intros [= <- <-]. split; [reflexivity|].
  generalize (filing (userptr ++ [new_user name pass]) g). clear g. intros g0.
  induction userptr as [|v next IH]; simpl in *.
  - rewrite !String.eqb_refl. reflexivity.
  - destruct (String.eqb (username v) name); [discriminate|]. simpl. auto.
Qed.

Lemma login_after_addUser_witness :
  [bob; alice] = ([bob] ++ [new_user "alice" "pw1"])%list /\
  login [bob; alice] "alice" "pw1" (filing [bob; alice] startup) =
    ([alice], mkGlobals loggedIn "alice" (disk (filing [bob; alice] startup)),
     LoginSuccessful).
Proof.
  apply (login_after_addUser [bob] "alice" "pw1" startup). reflexivity.
Defined.

(** C4: selecting Login in the main menu replaces the list head held by
    [main] by what [login] returns: [NULL] when no record carries the
    username, and otherwise the first node carrying it, whether the
    password is right or wrong, so that the records before that node,
    or all records when there is none, are no longer reachable. *)
Theorem main_login_installs_matched_node :
  forall (c : console) (userptr : list user) (g : globals),
    currentStatus g = menu ->
    (username_taken (typed_name c) userptr = false ->
       option_map fst (main_step 2 c userptr g) = Some []) /\
    (forall before u after,
       userptr = (before ++ u :: after)%list ->
       username u = typed_name c ->
       username_taken (typed_name c) before = false ->
       option_map fst (main_step 2 c userptr g) = Some (u :: after) /\
       snd (login userptr (typed_name c) (typed_pass c) g) <> UserNotFound) /\
    (username_taken (typed_name c) userptr = true ->
       exists before u after,
         userptr = (before ++ u :: after)%list /\
         username u = typed_name c /\
         option_map fst (main_step 2 c userptr g) = Some (u :: after)).
Proof.
  intros c userptr g Hmenu.
  assert (Hfound : forall before u after,
             userptr = (before ++ u :: after)%list ->
             username u = typed_name c ->
             username_taken (typed_name c) before = false ->
             option_map fst (main_step 2 c userptr g) = Some (u :: after) /\
             snd (login userptr (typed_name c) (typed_pass c) g) <> UserNotFound).
  { intros before u after -> Hname Hfree. unfold main_step. rewrite Hmenu.
    destruct (login_stops_at_match before u after _ (typed_pass c) g Hname Hfree)
      as [Hnode Htag].
    destruct (login (before ++ u :: after) (typed_name c) (typed_pass c) g)
      as [[p g'] r]; simpl in *.
    subst p. split; [reflexivity|].
    rewrite Htag. destruct (String.eqb (password u) (typed_pass c)); discriminate. }
  split; [|split].
  - intros Hfree. unfold main_step. rewrite Hmenu.
    rewrite (login_no_match _ _ _ _ Hfree). reflexivity.
  - exact Hfound.
  - intros Htaken.
    destruct (username_taken_split _ _ Htaken) as (before & u & after & Hsplit & Hu & Hb).
    exists before, u, after. repeat split; try assumption.
    apply (Hfound before u after Hsplit Hu Hb).
Qed.

Lemma main_login_installs_matched_node_witness :
  option_map fst
    (main_step 2 (mkConsole "alice" "guess" "" "0" None "") [bob; alice; bob] startup)
  = Some [alice; bob].
Proof.
  apply (proj1 (proj2 (main_login_installs_matched_node
           (mkConsole "alice" "guess" "" "0" None "") [bob; alice; bob] startup
           eq_refl)) [bob] alice [bob]); reflexivity.
Defined.

(** ** Booking *)

Lemma filing_currentUser :
  forall userptr g, currentUser (filing userptr g) = currentUser g.
Proof. reflexivity. Qed.

(** Every package of the table has a non-zero price and a destination
    name that is not the sentinel. *)
Lemma tour_of_code_booked :
  forall code tour_price tour_place,
    tour_of_code code = Some (tour_price, tour_place) ->
    feq tour_price fzero = false /\
    is_destination tour_place = true /\
    String.eqb tour_place "N/A" = false.
Proof.
  intros code tour_price tour_place. unfold tour_of_code.
  repeat (case_strcmp code; [intros [= <- <-]; vm_compute; auto|]).
  discriminate.
Qed.

(** The codes the chain accepts are the decimal numerals of 1 to 10. *)
Lemma tour_of_code_index :
  forall k, 1 <= k <= 10 ->
    tour_of_code (fmt_d k) = Some (package (Z.to_nat (k - 1))).
Proof.
  intros k Hk.
  assert (H : k = 1 \/ k = 2 \/ k = 3 \/ k = 4 \/ k = 5 \/
              k = 6 \/ k = 7 \/ k = 8 \/ k = 9 \/ k = 10) by lia.
  repeat (destruct H as [->|H]; [reflexivity|]). subst k. reflexivity.
Qed.

(** What a completed booking did. *)
Lemma booking_completed_inv :
  forall userptr code choice tickets g userptr1 g1,
    booking userptr code choice tickets g = (userptr1, g1, BookingCompleted) ->
    exists u tour_price tour_place n,
      find_user (currentUser g) userptr = Some u /\
      feq (price u) fzero = true /\
      tour_of_code code = Some (tour_price, tour_place) /\
      n = match tickets with Some k => k | None => numberTicket u end /\
      n <> 0 /\
      userptr1 = store_user (currentUser g)
                   (mkUser (username u) (password u) tour_place tour_price n) userptr /\
      g1 = filing userptr1 g.
Proof.
  intros userptr code choice tickets g userptr1 g1. unfold booking.
  destruct (find_user (currentUser g) userptr) as [u|] eqn:Hfind; [|discriminate].
  destruct (feq (price u) fzero) eqn:Hprice; simpl; [|discriminate].
  destruct (Ascii.eqb choice "1"); simpl; [|discriminate].
  destruct (tour_of_code code) as [[tour_price tour_place]|] eqn:Htour; [|discriminate].
  destruct (numberTicket _ =? 0) eqn:Hzero; [discriminate|].
  intros [= <- <-].
  exists u, tour_price, tour_place,
         (match tickets with Some k => k | None => numberTicket u end).
  apply Z.eqb_neq in Hzero.
  destruct tickets as [k|]; simpl in *; repeat split; auto.
Qed.

(** C8: once [booking] has completed, calling it again, whatever is
    typed, reports [AlreadyBooked] and leaves the list and the file as
    the first call left them; the record then holds a booking. *)
Theorem booking_twice_already_booked :
  forall (userptr : list user) (code : string) (choice : ascii)
         (tickets : option Z) (g : globals) (userptr1 : list user) (g1 : globals),
    booking userptr code choice tickets g = (userptr1, g1, BookingCompleted) ->
    (exists u1, find_user (currentUser g1) userptr1 = Some u1 /\
                no_booking u1 = false) /\
    forall code' choice' tickets',
      booking userptr1 code' choice' tickets' g1 = (userptr1, g1, AlreadyBooked).
Proof.
  intros userptr code choice tickets g userptr1 g1 Hbook.
  destruct (booking_completed_inv _ _ _ _ _ _ _ Hbook)
    as (u & tour_price & tour_place & n & Hfind & _ & Htour & _ & Hn & Hlist & Hg).
  destruct (tour_of_code_booked _ _ _ Htour) as (Hprice & _ & Hplace).
  assert (Hfind1 : find_user (currentUser g1) userptr1 =
                   Some (mkUser (username u) (password u) tour_place tour_price n)).
  { rewrite Hg, filing_currentUser, Hlist.
    apply (find_user_store _ _ u); [exact Hfind|].
    apply (find_user_username _ _ _ Hfind). }
  split.
  - eexists; split; [exact Hfind1|]. unfold no_booking; simpl.
    rewrite Hplace. reflexivity.
  - intros code' choice' tickets'. unfold booking. rewrite Hfind1. simpl.
    rewrite Hprice. reflexivity.
Qed.

Lemma booking_twice_already_booked_witness :
  booking [alice_bangkok] "5" "1" (Some 4)
    (filing [alice_bangkok] (alice_session None))
  = ([alice_bangkok], filing [alice_bangkok] (alice_session None), AlreadyBooked).
Proof.
  apply (proj2 (booking_twice_already_booked
                  [alice] "3" "1" (Some 2) (alice_session None)
                  [alice_bangkok] (filing [alice_bangkok] (alice_session None))
                  eq_refl)).
Defined.

(** C2 as the code has it: for a record without a booking, a valid tour
    code and a confirmed request, [booking] reports [ZeroTickets] exactly
    when the count typed is zero, and then changes nothing; for every
    other count, negative ones included, it stores the destination and
    price of the package together with the count and rewrites the file. *)
Theorem booking_ticket_count :
  forall (userptr : list user) (g : globals) (u : user) (k n : Z),
    find_user (currentUser g) userptr = Some u ->
    no_booking u = true ->
    1 <= k <= 10 ->
    booking userptr (fmt_d k) "1" (Some n) g =
      if n =? 0 then (userptr, g, ZeroTickets)
      else
        let booked :=
          mkUser (username u) (password u)
                 (snd (package (Z.to_nat (k - 1))))
                 (fst (package (Z.to_nat (k - 1)))) n in
        let tempptr := store_user (currentUser g) booked userptr in
        (tempptr, filing tempptr g, BookingCompleted).
Proof.
  intros userptr g u k n Hfind Hempty Hk. unfold booking.
  rewrite Hfind, (tour_of_code_index k Hk).
  unfold no_booking in Hempty.
  apply andb_prop in Hempty as [Hempty Hcount].
  apply andb_prop in Hempty as [_ Hprice].
  apply Z.eqb_eq in Hcount.
  rewrite Hprice. simpl negb. cbv iota.
  destruct (package (Z.to_nat (k - 1))) as [tour_price tour_place]. simpl.
  destruct (n =? 0) eqn:Hn.
  - apply Z.eqb_eq in Hn. subst n.
    replace (set_numberTicket 0 u) with u
      by (destruct u; unfold set_numberTicket; simpl in *; congruence).
    rewrite (store_user_same _ _ _ Hfind). reflexivity.
  - reflexivity.
Qed.

Lemma booking_ticket_count_witness :
  booking [bob; alice] (fmt_d 3) "1" (Some 2) (alice_session None) =
    ([bob; alice_bangkok], filing [bob; alice_bangkok] (alice_session None),
     BookingCompleted).
Proof.
  apply (booking_ticket_count [bob; alice] (alice_session None) alice 3 2).
  - reflexivity.
  - reflexivity.
  - lia.
Defined.

(** C2, counterexample: with [-1] typed as the number of tickets the
    booking is completed, not refused, and the record holds [-1] tickets
    for Bangkok. *)
Lemma booking_negative_tickets_completed :
  -1 <= 0 /\ no_booking alice = true /\
  booking [alice] "3" "1" (Some (-1)) (alice_session None) =
    ([mkUser "alice" "pw1" "Bangkok, Thailand" (float_of_int 250000) (-1)],
     filing [mkUser "alice" "pw1" "Bangkok, Thailand" (float_of_int 250000) (-1)]
            (alice_session None),
     BookingCompleted) /\
  snd (booking [alice] "3" "1" (Some (-1)) (alice_session None)) <> ZeroTickets.
Proof.
  repeat split; [lia | discriminate].
Qed.

(** ** Totals and refunds *)

Lemma all_within_spec :
  forall k test,
    all_within k test = true ->
    forall n, - Z.of_nat k <= n <= Z.of_nat k -> test n = true.
Proof.
  induction k as [|k IH]; simpl all_within; intros test Hall n Hn.
  - replace n with 0 by (simpl in Hn; lia). exact Hall.
  - apply andb_prop in Hall as [Hall Hrest].
    apply andb_prop in Hall as [Hpos Hneg].
    destruct (Z.eq_dec n (Z.of_nat (S k))) as [->|Hp]; [exact Hpos|].
    destruct (Z.eq_dec n (- Z.of_nat (S k))) as [->|Hm]; [exact Hneg|].
    apply (IH test Hrest). lia.
Qed.

(** For the ten prices of the table and up to 596 tickets, bought or
    owed, the single-precision product is the exact product. *)
Lemma tour_total_exact :
  forall p n,
    In p tour_prices -> -596 <= n <= 596 ->
    float_int_value (fmul (float_of_int p) (float_of_int n)) = Some (p * n).
Proof.
  intros p n Hp Hn.
  assert (Hall : all_within 596
            (fun n => forallb (fun p => total_is_exact p n) tour_prices) = true)
    by (vm_compute; reflexivity).
  pose proof (all_within_spec 596 _ Hall n) as Hrow. cbv beta in Hrow.
  assert (Hexact : total_is_exact p n = true).
  { refine (proj1 (forallb_forall _ _) (Hrow _) p Hp).
    change (Z.of_nat 596) with 596. exact Hn. }
  unfold total_is_exact in Hexact.
  destruct (float_int_value (fmul (float_of_int p) (float_of_int n))) as [v|];
    [|discriminate].
  apply Z.eqb_eq in Hexact. congruence.
Qed.

Lemma tour_price_nonzero :
  forall p, In p tour_prices -> feq (float_of_int p) fzero = false.
Proof.
  intros p Hp. simpl in Hp.
  repeat (destruct Hp as [<-|Hp]; [reflexivity|]). contradiction.
Qed.

(** C10 as the code has it: for the record of the current user,
    [checkTicket] reports [NoTicketBooked] when the record has no
    booking; when place, price and count are all set it reports the
    single-precision product of the price and the count, which for a
    price of the table and at most 596 tickets is exactly the price
    times the count. *)
Theorem checkTicket_total :
  forall (userptr : list user) (g : globals) (u : user),
    find_user (currentUser g) userptr = Some u ->
    (no_booking u = true -> checkTicket userptr g = NoTicketBooked) /\
    (place u <> "" -> feq (price u) fzero = false -> numberTicket u <> 0 ->
       checkTicket userptr g =
         TicketTotal (numberTicket u)
                     (fmul (price u) (float_of_int (numberTicket u))) (place u)) /\
    (forall p,
       In p tour_prices -> price u = float_of_int p ->
       place u <> "" -> numberTicket u <> 0 -> -596 <= numberTicket u <= 596 ->
       exists total,
         checkTicket userptr g = TicketTotal (numberTicket u) total (place u) /\
         float_int_value total = Some (p * numberTicket u)).
Proof.
  intros userptr g u Hfind. unfold checkTicket. rewrite Hfind.
  assert (Hbooked : place u <> "" -> feq (price u) fzero = false ->
                    numberTicket u <> 0 ->
                    (String.eqb (place u) "" || feq (price u) fzero ||
                     (numberTicket u =? 0))%bool = false).
  { intros Hplace Hprice Hcount.
    apply String.eqb_neq in Hplace. apply Z.eqb_neq in Hcount.
    rewrite Hplace, Hprice, Hcount. reflexivity. }
  split; [|split].
  - unfold no_booking. intros Hempty.
    apply andb_prop in Hempty as [Hempty _].
    apply andb_prop in Hempty as [_ Hprice].
    rewrite Hprice, orb_true_r. reflexivity.
  - intros Hplace Hprice Hcount. rewrite (Hbooked Hplace Hprice Hcount). reflexivity.
  - intros p Hp Heq Hplace Hcount Hrange.
    assert (Hprice : feq (price u) fzero = false)
      by (rewrite Heq; apply tour_price_nonzero, Hp).
    rewrite (Hbooked Hplace Hprice Hcount).
    eexists; split; [reflexivity|]. rewrite Heq. apply tour_total_exact; assumption.
Qed.

Lemma checkTicket_total_witness :
  exists total,
    checkTicket [bob; alice_bangkok] (alice_session None) =
      TicketTotal 2 total "Bangkok, Thailand" /\
    float_int_value total = Some (250000 * 2).
Proof.
  apply (proj2 (proj2 (checkTicket_total [bob; alice_bangkok] (alice_session None)
                         alice_bangkok eq_refl)) 250000).
  - simpl. auto.
  - reflexivity.
  - discriminate.
  - simpl. lia.
  - simpl. lia.
Defined.

(** C10, counterexample: after booking 597 tickets for Istanbul at
    450000 a ticket, the total reported is 268649984, while the price
    times the count is 268650000. *)
Lemma checkTicket_total_rounded :
  let '(userptr, g, _) := booking [alice] "9" "1" (Some 597) (alice_session None) in
  exists u total,
    find_user (currentUser g) userptr = Some u /\
    no_booking u = false /\
    float_int_value (price u) = Some 450000 /\ numberTicket u = 597 /\
    checkTicket userptr g = TicketTotal 597 total "Istanbul, Turkey" /\
    float_int_value total = Some 268649984 /\
    float_int_value total <> Some (450000 * 597).
Proof.
  simpl. eexists. eexists.
  repeat split; try reflexivity. vm_compute. discriminate.
Qed.

Lemma cancel_flag_destination :
  forall p, cancel_flag p = if is_destination p then Some 0 else None.
Proof.
  intros p. unfold cancel_flag, is_destination, placeList, existsb.
  repeat (case_strcmp p; [reflexivity|]).
  reflexivity.
Qed.

Lemma store_user_twice :
  forall name a b userptr,
    username b = name ->
    store_user name a (store_user name b userptr) = store_user name a userptr.
Proof.
  intros name a b userptr Hb.
  induction userptr as [|v next IH]; simpl; [reflexivity|].
  destruct (String.eqb (username v) name) eqn:E; simpl.
  - rewrite Hb, String.eqb_refl. reflexivity.
  - rewrite E, IH. reflexivity.
Qed.

Lemma no_booking_fields :
  forall u, no_booking u = true ->
    place u = "N/A" /\ feq (price u) fzero = true /\ numberTicket u = 0.
Proof.
  intros u H. unfold no_booking in H.
  apply andb_prop in H as [H Hcount]. apply andb_prop in H as [Hplace Hprice].
  apply String.eqb_eq in Hplace. apply Z.eqb_eq in Hcount. auto.
Qed.

(** C9 as the code has it: for the record of the current user,
    [cancellation] of a record booked for one of the ten destinations
    reports the single-precision product of the price and the count as
    the refund, exactly the price times the count for a price of the
    table and at most 596 tickets, and resets the triple to
    [("N/A", 0, 0)] and rewrites the file; a record without a booking
    gets [NoTourBooked] and nothing changes; and a completed booking
    followed by [cancellation] leaves the record without a booking, every
    other record as it was, and the whole list as it was before the
    booking when the price field was the [0.0] that registration stores. *)
Theorem cancellation_refund :
  forall (userptr : list user) (g : globals) (u : user),
    find_user (currentUser g) userptr = Some u ->
    (is_destination (place u) = true ->
       let tempptr := store_user (currentUser g) (cleared u) userptr in
       cancellation userptr g =
         (tempptr, filing tempptr g,
          Cancelled (place u) (numberTicket u)
                    (fmul (price u) (float_of_int (numberTicket u)))) /\
       no_booking (cleared u) = true /\
       forall p,
         In p tour_prices -> price u = float_of_int p ->
         -596 <= numberTicket u <= 596 ->
         float_int_value (fmul (price u) (float_of_int (numberTicket u)))
           = Some (p * numberTicket u)) /\
    (no_booking u = true -> cancellation userptr g = (userptr, g, NoTourBooked)) /\
    (no_booking u = true ->
     forall code choice tickets userptr1 g1,
       booking userptr code choice tickets g = (userptr1, g1, BookingCompleted) ->
       let userptr2 := store_user (currentUser g) (cleared u) userptr in
       (exists destination n refund,
          cancellation userptr1 g1 =
            (userptr2, filing userptr2 g1, Cancelled destination n refund)) /\
       find_user (currentUser g) userptr2 = Some (cleared u) /\
       (price u = fzero -> userptr2 = userptr)).
Proof.
  intros userptr g u Hfind.
  pose proof (find_user_username _ _ _ Hfind) as Hname.
  split; [|split].
  - intros Hdest. cbv zeta. unfold cancellation.
    rewrite Hfind, cancel_flag_destination, Hdest. simpl Z.eqb. cbv iota.
    split; [reflexivity|]. split; [reflexivity|].
    intros p Hp Heq Hrange. rewrite Heq. apply tour_total_exact; assumption.
  - intros Hempty. destruct (no_booking_fields u Hempty) as (Hplace & _ & _).
    unfold cancellation. rewrite Hfind, cancel_flag_destination, Hplace.
    reflexivity.
  - intros Hempty code choice tickets userptr1 g1 Hbook. cbv zeta.
    destruct (no_booking_fields u Hempty) as (Hplace & Hprice & Hcount).
    destruct (booking_completed_inv _ _ _ _ _ _ _ Hbook)
      as (u0 & tour_price & tour_place & n & Hfind0 & _ & Htour & _ & _ & Hlist & Hg).
    rewrite Hfind in Hfind0. injection Hfind0 as <-.
    destruct (tour_of_code_booked _ _ _ Htour) as (_ & Hdest & _).
    assert (Hfind1 : find_user (currentUser g1) userptr1 =
                     Some (mkUser (username u) (password u) tour_place tour_price n)).
    { rewrite Hg, filing_currentUser, Hlist.
      apply (find_user_store _ _ u); [exact Hfind | exact Hname]. }
    split; [|split].
    + exists tour_place, n, (fmul tour_price (float_of_int n)).
      unfold cancellation. rewrite Hfind1, cancel_flag_destination. simpl place.
      rewrite Hdest. simpl Z.eqb. cbv iota.
      replace (currentUser g1) with (currentUser g)
        by (rewrite Hg; reflexivity).
      rewrite Hlist. simpl username. simpl password.
      rewrite (store_user_twice (currentUser g) _
                 (mkUser (username u) (password u) tour_place tour_price n)
                 userptr Hname).
      reflexivity.
    + apply (find_user_store _ _ u); [exact Hfind | exact Hname].
    + intros Hzero.
      replace (cleared u) with u
        by (destruct u; unfold cleared; simpl in *; congruence).
      apply store_user_same, Hfind.
Qed.

Lemma cancellation_refund_witness :
  float_int_value (fmul (price alice_bangkok)
                        (float_of_int (numberTicket alice_bangkok)))
  = Some (250000 * 2).
Proof.
  apply (proj1 (cancellation_refund [bob; alice_bangkok] (alice_session None)
                  alice_bangkok eq_refl) eq_refl).
  - simpl. auto.
  - reflexivity.
  - simpl. lia.
Defined.

(** C9, counterexample: cancelling 2049 tickets for Gilgit at 75000 a
    ticket reports a refund of 153675008, while the price times the
    count is 153675000. *)
Lemma cancellation_refund_rounded :
  let gilgit := mkUser "alice" "pw1" "Gilgit, Pakistan" (float_of_int 75000) 2049 in
  booking [alice] "10" "1" (Some 2049) (alice_session None) =
    ([gilgit], filing [gilgit] (alice_session None), BookingCompleted) /\
  no_booking gilgit = false /\
  float_int_value (price gilgit) = Some 75000 /\
  exists refund,
    snd (cancellation [gilgit] (filing [gilgit] (alice_session None))) =
      Cancelled "Gilgit, Pakistan" 2049 refund /\
    float_int_value refund = Some 153675008 /\
    float_int_value refund <> Some (75000 * 2049).
Proof.
  cbv zeta. repeat split. eexists.
  repeat split; try reflexivity. vm_compute. discriminate.
Qed.

(** ** The invariant of the booking triple *)

Lemma forallb_store_user :
  forall test name u' userptr,
    forallb test userptr = true -> test u' = true ->
    forallb test (store_user name u' userptr) = true.
Proof.
  intros test name u' userptr Hall Hu'.
  induction userptr as [|v next IH]; simpl in *; [reflexivity|].
  apply andb_prop in Hall as [Hv Hnext].
  destruct (String.eqb (username v) name); simpl.
  - rewrite Hu', Hnext. reflexivity.
  - rewrite Hv, (IH Hnext). reflexivity.
Qed.

Lemma forallb_find_user :
  forall test name userptr u,
    forallb test userptr = true -> find_user name userptr = Some u -> test u = true.
Proof.
  intros test name userptr u Hall Hfind.
  apply (proj1 (forallb_forall test userptr) Hall).
  apply (find_user_In _ _ _ Hfind).
Qed.

(** A suffix of a list keeps what holds of every record of the list. *)
Lemma forallb_login :
  forall test userptr name pass g,
    forallb test userptr = true ->
    forallb test (fst (fst (login userptr name pass g))) = true.
Proof.
  intros test userptr name pass g.
  induction userptr as [|v next IH]; simpl; [reflexivity|].
  intros Hall.
  destruct (String.eqb (username v) name); simpl;
    [destruct (String.eqb (password v) pass); simpl; exact Hall|].
  apply andb_prop in Hall as [_ Hnext]. exact (IH Hnext).
Qed.

(** X5: the operations on the list in memory keep the invariant of every
    record: [addUser], [login], [booking], [cancellation] and
    [changePassword]. *)
Theorem operations_keep_booking_invariant :
  forall (userptr : list user) (g : globals),
    forallb booking_invariant userptr = true ->
    (forall name pass,
       forallb booking_invariant (fst (fst (addUser userptr name pass g))) = true) /\
    (forall name pass,
       forallb booking_invariant (fst (fst (login userptr name pass g))) = true) /\
    (forall code choice tickets,
       forallb booking_invariant
         (fst (fst (booking userptr code choice tickets g))) = true) /\
    forallb booking_invariant (fst (fst (cancellation userptr g))) = true /\
    (forall passCurrent passNew,
       forallb booking_invariant
         (fst (fst (changePassword userptr passCurrent passNew g))) = true).
Proof.
  intros userptr g Hall. repeat split.
  - intros name pass. unfold addUser.
    destruct (username_taken name userptr); simpl; [exact Hall|].
    rewrite forallb_app, Hall. reflexivity.
  - intros name pass. apply forallb_login, Hall.
  - intros code choice tickets. unfold booking.
    destruct (find_user (currentUser g) userptr) as [u|] eqn:Hfind; [|exact Hall].
    pose proof (forallb_find_user _ _ _ _ Hall Hfind) as Hu.
    destruct (feq (price u) fzero) eqn:Hprice; simpl; [|exact Hall].
    destruct (Ascii.eqb choice "1"); simpl; [|exact Hall].
    destruct (tour_of_code code) as [[tour_price tour_place]|] eqn:Htour;
      [|exact Hall].
    destruct (tour_of_code_booked _ _ _ Htour) as (Hnonzero & _ & Hplace).
    match goal with
    | |- context [numberTicket ?r =? 0] => destruct (numberTicket r =? 0) eqn:Hzero
    end; simpl; apply forallb_store_user; try exact Hall.
    + unfold booking_invariant in *. rewrite Hprice in Hu.
      destruct tickets as [n|]; simpl in *; rewrite Hprice, Hzero;
        destruct (String.eqb (place u) "N/A"); simpl in *;
        try reflexivity; discriminate.
    + unfold booking_invariant; simpl.
      destruct tickets as [n|]; simpl in *;
        rewrite Hplace, Hnonzero, Hzero; reflexivity.
  - unfold cancellation.
    destruct (find_user (currentUser g) userptr) as [u|] eqn:Hfind; [|exact Hall].
    rewrite cancel_flag_destination.
    destruct (is_destination (place u)); simpl; [|exact Hall].
    apply forallb_store_user; [exact Hall | reflexivity].
  - intros passCurrent passNew. unfold changePassword.
    destruct (find_user (currentUser g) userptr) as [u|] eqn:Hfind; [|exact Hall].
    pose proof (forallb_find_user _ _ _ _ Hall Hfind) as Hu.
    destruct (String.eqb passCurrent (password u)); simpl; [|exact Hall].
    apply forallb_store_user; [exact Hall | exact Hu].
Qed.

(** ** The reading loop terminates *)

Lemma skip_ws_length :
  forall s, (String.length (skip_ws s) <= String.length s)%nat.
Proof.
  induction s as [|c r IH]; simpl; [lia|].
  destruct (isspace c); simpl; lia.
Qed.

Lemma skip_ws_head :
  forall s c r, skip_ws s = String c r -> isspace c = false.
Proof.
  induction s as [|a s IH]; simpl; intros c r; [discriminate|].
  destruct (isspace a) eqn:E; [apply IH|]. intros [= <- _]. exact E.
Qed.

Lemma read_nonws_length :
  forall s, (String.length (snd (read_nonws s)) <= String.length s)%nat.
Proof.
  induction s as [|c s IH]; simpl; [lia|].
  destruct (isspace c); simpl; [lia|].
  destruct (read_nonws s) as [w r]. simpl in *. lia.
Qed.

Lemma scan_s_length :
  forall s,
    match scan_s s with
    | Conv _ r => (String.length r < String.length s)%nat
    | MatchFail _ => False
    | InputFail => True
    end.
Proof.
  intros s. unfold scan_s.
  pose proof (skip_ws_length s) as Hs.
  destruct (skip_ws s) as [|c r0] eqn:E; [exact I|].
  pose proof (skip_ws_head _ _ _ E) as Hc.
  simpl. rewrite Hc.
  pose proof (read_nonws_length r0) as Hr.
  destruct (read_nonws r0) as [w r]. simpl in *. lia.
Qed.

Lemma read_digits_length :
  forall s acc len,
    (String.length (snd (read_digits s acc len)) <= String.length s)%nat.
Proof.
  induction s as [|c s IH]; intros acc len; [simpl; lia|].
  cbn [read_digits]. destruct (isdigit c); [|simpl; lia].
  etransitivity; [apply IH | simpl; lia].
Qed.

Lemma read_sign_length :
  forall s, (String.length (snd (read_sign s)) <= String.length s)%nat.
Proof.
  intros [|c s]; simpl; [lia|].
  destruct (Ascii.eqb c "-"); simpl; [lia|].
  destruct (Ascii.eqb c "+"); simpl; lia.
Qed.

Lemma read_word_length :
  forall word s k,
    (String.length (snd (read_word word s k)) <= String.length s)%nat.
Proof.
  induction word as [|w word IH]; simpl; intros s k; [lia|].
  destruct s as [|c s]; simpl; [lia|].
  destruct (Ascii.eqb (lower c) w); simpl; [|lia].
  specialize (IH s (S k)). lia.
Qed.

Lemma skip_nchars_length :
  forall s, (String.length (skip_nchars s) <= String.length s)%nat.
Proof.
  induction s as [|c r IH]; simpl; [lia|].
  destruct (isalnum_ c); simpl; lia.
Qed.

Lemma scan_exponent_length :
  forall neg m flen s, conv_shorter (scan_exponent neg m flen s) s.
Proof.
  intros neg m flen s. unfold scan_exponent.
  pose proof (read_sign_length s) as H1.
  destruct (read_sign s) as [eneg s1].
  pose proof (read_digits_length s1 0 0) as H2.
  destruct (read_digits s1 0 0) as [[ev elen] s2].
  destruct (elen =? 0); simpl in *; lia.
Qed.

Lemma scan_decimal_length :
  forall neg s, conv_shorter (scan_decimal neg s) s.
Proof.
  intros neg s. unfold scan_decimal.
  pose proof (read_digits_length s 0 0) as H1.
  destruct (read_digits s 0 0) as [[ip ilen] s1]. simpl in H1.
  set (fraction :=
         match s1 with
         | String c r => if Ascii.eqb c "." then read_digits r ip 0 else (ip, 0, s1)
         | EmptyString => (ip, 0, s1)
         end).
  assert (H2 : (String.length (snd fraction) <= String.length s1)%nat).
  { subst fraction. destruct s1 as [|c r]; simpl; [lia|].
    destruct (Ascii.eqb c "."); simpl; [|lia].
    pose proof (read_digits_length r ip 0). lia. }
  destruct fraction as [[m flen] s2].
  simpl in H2.
  destruct (ilen + flen =? 0); simpl; [lia|].
  destruct s2 as [|x r]; simpl; [lia|].
  destruct (Ascii.eqb (lower x) "e"); simpl in *; [|lia].
  pose proof (scan_exponent_length neg m flen r) as H3.
  destruct (scan_exponent neg m flen r); simpl in *; lia.
Qed.

Lemma scan_inf_length :
  forall neg s, conv_shorter (scan_inf neg s) s.
Proof.
  intros neg s. unfold scan_inf.
  pose proof (read_word_length "infinity" s O) as H.
  destruct (read_word "infinity" s O) as [k r].
  destruct (Nat.eqb k 3 || Nat.eqb k 8)%bool; simpl in *; lia.
Qed.

Lemma scan_nan_length :
  forall s, conv_shorter (scan_nan s) s.
Proof.
  intros s. unfold scan_nan.
  pose proof (read_word_length "nan" s O) as H.
  destruct (read_word "nan" s O) as [k r]. simpl in H.
  destruct (Nat.eqb k 3); simpl; [|lia].
  destruct r as [|c r1]; simpl; [lia|].
  destruct (Ascii.eqb c "("); simpl in *; [|lia].
  pose proof (skip_nchars_length r1) as H1.
  destruct (skip_nchars r1) as [|d r2]; simpl in *; [lia|].
  destruct (Ascii.eqb d ")"); simpl; lia.
Qed.

Lemma scan_f_length :
  forall s, conv_shorter (scan_f s) s.
Proof.
  intros s. unfold scan_f.
  pose proof (skip_ws_length s) as Hs.
  destruct (skip_ws s) as [|c r0]; [exact I|].
  pose proof (read_sign_length (String c r0)) as H1.
  destruct (read_sign (String c r0)) as [neg s1]. simpl in H1, Hs.
  destruct s1 as [|d r1]; [simpl; lia|].
  destruct (isdigit d || Ascii.eqb d ".")%bool.
  { pose proof (scan_decimal_length neg (String d r1)) as H.
    destruct (scan_decimal neg (String d r1)); simpl in *; lia. }
  destruct (Ascii.eqb (lower d) "i").
  { pose proof (scan_inf_length neg (String d r1)) as H.
    destruct (scan_inf neg (String d r1)); simpl in *; lia. }
  destruct (Ascii.eqb (lower d) "n").
  { pose proof (scan_nan_length (String d r1)) as H.
    destruct (scan_nan (String d r1)); simpl in *; lia. }
  simpl in *. lia.
Qed.

Lemma scan_d_length :
  forall s, conv_shorter (scan_d s) s.
Proof.
  intros s. unfold scan_d.
  pose proof (skip_ws_length s) as Hs.
  destruct (skip_ws s) as [|c r0]; [exact I|].
  pose proof (read_sign_length (String c r0)) as H1.
  destruct (read_sign (String c r0)) as [neg s1].
  pose proof (read_digits_length s1 0 0) as H2.
  destruct (read_digits s1 0 0) as [[v len] r].
  destruct (len =? 0); simpl in *; lia.
Qed.

(** Every [fscanf] that does not return [EOF] consumes input. *)
Lemma fscanf_user_consumes :
  forall inp temp n temp' rest,
    fscanf_user inp temp = (Assigned n, temp', rest) ->
    (String.length rest < String.length inp)%nat.
Proof.
  intros inp temp n temp' rest. unfold fscanf_user.
  pose proof (scan_s_length inp) as H1.
  destruct (scan_s inp) as [w1 r1| |]; [|contradiction|discriminate].
  pose proof (skip_ws_length r1) as K1.
  pose proof (scan_s_length (skip_ws r1)) as H2.
  destruct (scan_s (skip_ws r1)) as [w2 r2| |];
    [|contradiction|intros [= _ _ <-]; simpl; lia].
  pose proof (skip_ws_length r2) as K2.
  pose proof (scan_s_length (skip_ws r2)) as H3.
  destruct (scan_s (skip_ws r2)) as [w3 r3| |];
    [|contradiction|intros [= _ _ <-]; simpl; lia].
  pose proof (skip_ws_length r3) as K3.
  pose proof (scan_f_length (skip_ws r3)) as H4.
  destruct (scan_f (skip_ws r3)) as [x r4|r4|]; simpl in H4;
    [|intros [= _ _ <-]; lia|intros [= _ _ <-]; simpl; lia].
  pose proof (skip_ws_length r4) as K4.
  pose proof (scan_d_length (skip_ws r4)) as H5.
  destruct (scan_d (skip_ws r4)) as [k r5|r5|]; simpl in H5;
    intros [= _ _ <-]; simpl; lia.
Qed.

Lemma read_users_fuel :
  forall fuel inp temp,
    (String.length inp < fuel)%nat -> read_users fuel inp temp <> None.
Proof.
  induction fuel as [|fuel IH]; intros inp temp Hlen; [lia|].
  simpl. destruct (fscanf_user inp temp) as [[count temp'] rest] eqn:E.
  destruct count as [|n]; [discriminate|].
  pose proof (fscanf_user_consumes _ _ _ _ _ E) as Hrest.
  specialize (IH rest temp' ltac:(lia)).
  destruct (read_users fuel rest temp'); [discriminate | contradiction].
Qed.

(** X3: the reading loop of [initializeUser] ends on every file: each
    [fscanf] that does not return [EOF] consumes at least one character,
    so the fuel given to the loop is never used up. *)
Theorem initializeUser_returns :
  forall userptr temp g, initializeUser userptr temp g <> OutOfFuel.
Proof.
  intros userptr temp g. unfold initializeUser.
  destruct (disk g) as [text|]; [|discriminate].
  destruct text as [|c text]; [discriminate|].
  pose proof (read_users_fuel (S (String.length (String c text))) (String c text) temp
                ltac:(lia)) as H.
  destruct (read_users _ _ temp) as [nodes|]; [|contradiction].
  destruct userptr; destruct nodes; discriminate.
Qed.

(** ** Records without white space are read back as saved *)

Lemma append_assoc :
  forall a b c : string, (a ++ b) ++ c = a ++ (b ++ c).
Proof.
  induction a as [|x a IH]; intros b c; simpl; [reflexivity|].
  rewrite IH. reflexivity.
Qed.

Lemma append_length :
  forall a b : string,
    String.length (a ++ b) = (String.length a + String.length b)%nat.
Proof.
  induction a as [|x a IH]; intros b; simpl; [reflexivity|].
  rewrite IH. reflexivity.
Qed.

Lemma read_nonws_token :
  forall w c rest,
    no_space w = true -> isspace c = true ->
    read_nonws (w ++ String c rest) = (w, String c rest).
Proof.
  induction w as [|x w IH]; intros c rest Hw Hc; simpl in *.
  - rewrite Hc. reflexivity.
  - apply andb_prop in Hw as [Hx Hw]. apply negb_true_iff in Hx.
    rewrite Hx, (IH c rest Hw Hc). reflexivity.
Qed.

Lemma scan_s_token :
  forall w c rest,
    is_token w = true -> isspace c = true ->
    scan_s (w ++ String c rest) = Conv w (String c rest).
Proof.
  intros w c rest Hw Hc. unfold is_token in Hw.
  apply andb_prop in Hw as [Hne Hw].
  destruct w as [|x w]; [discriminate|].
  pose proof (read_nonws_token (String x w) c rest Hw Hc) as Hread.
  simpl in Hw. apply andb_prop in Hw as [Hx _]. apply negb_true_iff in Hx.
  unfold scan_s. cbn [append skip_ws]. rewrite Hx.
  cbn [append] in Hread. rewrite Hread. reflexivity.
Qed.

Lemma digit_char_spec :
  forall d, 0 <= d <= 9 ->
    isdigit (digit_char d) = true /\ digit_value (digit_char d) = d /\
    isspace (digit_char d) = false /\
    Ascii.eqb (digit_char d) "-" = false /\ Ascii.eqb (digit_char d) "+" = false.
Proof.
  intros d Hd.
  assert (H : d = 0 \/ d = 1 \/ d = 2 \/ d = 3 \/ d = 4 \/
              d = 5 \/ d = 6 \/ d = 7 \/ d = 8 \/ d = 9) by lia.
  repeat (destruct H as [->|H]; [repeat split|]). subst d. repeat split.
Qed.

(** Reading the digits written for [n] shifts the value read so far by
    the number of digits and adds [n]. *)
Lemma dec_digits_read :
  forall fuel n acc rest,
    (0 < fuel)%nat -> 0 <= n < 10 ^ Z.of_nat fuel ->
    exists k, 0 < k /\
      forall a l,
        read_digits (dec_digits fuel n acc ++ rest) a l =
        read_digits (acc ++ rest) (a * 10 ^ k + n) (l + k).
Proof.
  induction fuel as [|fuel IH]; intros n acc rest Hfuel Hn; [lia|].
  cbn [dec_digits].
  assert (Hd : 0 <= n mod 10 <= 9) by (pose proof (Z.mod_pos_bound n 10); lia).
  destruct (digit_char_spec _ Hd) as (Hdigit & Hvalue & _).
  destruct (n / 10 =? 0) eqn:Hq.
  - apply Z.eqb_eq in Hq. exists 1. split; [lia|]. intros a l.
    cbn [append read_digits]. rewrite Hdigit, Hvalue.
    replace (a * 10 ^ 1 + n) with (10 * a + n mod 10)
      by (rewrite Z.pow_1_r; pose proof (Z.div_mod n 10); lia).
    reflexivity.
  - apply Z.eqb_neq in Hq.
    assert (Hn10 : 10 <= n).
    { destruct (Z_lt_le_dec n 10) as [Hlt|]; [|assumption].
      exfalso. apply Hq. apply Z.div_small. lia. }
    assert (Hf : (0 < fuel)%nat).
    { destruct fuel; [simpl in Hn; lia | lia]. }
    assert (Hn' : 0 <= n / 10 < 10 ^ Z.of_nat fuel).
    { split; [apply Z.div_pos; lia|].
      apply Z.div_lt_upper_bound; [lia|].
      replace (Z.of_nat (S fuel)) with (Z.succ (Z.of_nat fuel)) in Hn by lia.
      rewrite Z.pow_succ_r in Hn by lia. lia. }
    destruct (IH (n / 10) (String (digit_char (n mod 10)) acc) rest Hf Hn')
      as (k & Hk & Hread).
    exists (k + 1). split; [lia|]. intros a l.
    rewrite Hread. cbn [append read_digits]. rewrite Hdigit, Hvalue.
    replace (a * 10 ^ (k + 1) + n) with (10 * (a * 10 ^ k + n / 10) + n mod 10)
      by (rewrite Z.pow_add_r, Z.pow_1_r by lia; pose proof (Z.div_mod n 10); lia).
    replace (l + (k + 1)) with (l + k + 1) by lia.
    reflexivity.
Qed.

Lemma dec_digits_head :
  forall fuel n acc,
    (0 < fuel)%nat ->
    exists d tail, 0 <= d <= 9 /\ dec_digits fuel n acc = String (digit_char d) tail.
Proof.
  induction fuel as [|fuel IH]; intros n acc Hfuel; [lia|].
  cbn [dec_digits].
  assert (Hd : 0 <= n mod 10 <= 9) by (pose proof (Z.mod_pos_bound n 10); lia).
  destruct (n / 10 =? 0).
  - exists (n mod 10), acc. auto.
  - destruct fuel as [|fuel]; [exists (n mod 10), acc; auto|].
    apply IH. lia.
Qed.

Lemma dec_of_nonneg_bound :
  forall n, 0 <= n -> n < 10 ^ Z.of_nat (S (Z.to_nat (Z.log2 n))).
Proof.
  intros n Hn.
  destruct (Z.eq_dec n 0) as [->|Hz]; [reflexivity|].
  pose proof (Z.log2_nonneg n) as Hlog.
  replace (Z.of_nat (S (Z.to_nat (Z.log2 n)))) with (Z.succ (Z.log2 n)) by lia.
  pose proof (Z.log2_spec n ltac:(lia)) as [_ Hup].
  eapply Z.lt_le_trans; [exact Hup|].
  apply Z.pow_le_mono_l. lia.
Qed.

(** [%d] reads back what [%d] wrote, up to the white space after it. *)
Lemma scan_d_fmt_d :
  forall n c rest,
    isspace c = true ->
    scan_d (fmt_d n ++ String c rest) = Conv n (String c rest).
Proof.
  intros n c rest Hc.
  assert (Hstop : forall v k, read_digits (String c rest) v k = (v, k, String c rest)).
  { intros v k. cbn [read_digits].
    replace (isdigit c) with false; [reflexivity|].
    unfold isspace, isdigit in *. destruct (N_of_ascii c) as [|p]; [reflexivity|].
    apply orb_prop in Hc as [Hc|Hc].
    - apply N.eqb_eq in Hc. rewrite Hc. reflexivity.
    - apply andb_prop in Hc as [_ Hc]. apply N.leb_le in Hc.
      symmetry. apply andb_false_iff. left. apply N.leb_gt. lia. }
  assert (Hnonneg : forall m, 0 <= m ->
            exists d tail k, 0 <= d <= 9 /\ 0 < k /\
              dec_of_nonneg m = String (digit_char d) tail /\
              read_digits (dec_of_nonneg m ++ String c rest) 0 0
                = (m, k, String c rest)).
  { intros m Hm. unfold dec_of_nonneg.
    destruct (dec_digits_head (S (Z.to_nat (Z.log2 m))) m "" ltac:(lia))
      as (d & tail & Hd & Hhead).
    destruct (dec_digits_read (S (Z.to_nat (Z.log2 m))) m "" (String c rest)
                ltac:(lia) (conj Hm (dec_of_nonneg_bound m Hm)))
      as (k & Hk & Hread).
    exists d, tail, k. repeat split; try assumption; try lia.
    rewrite Hread. cbn [append]. rewrite Hstop. reflexivity. }
  unfold scan_d, fmt_d. destruct (n <? 0) eqn:Hneg.
  - apply Z.ltb_lt in Hneg.
    destruct (Hnonneg (- n) ltac:(lia)) as (d & tail & k & Hd & Hk & Hhead & Hread).
    cbn [append skip_ws]. change (isspace "-") with false. cbv iota.
    cbn [read_sign]. change (Ascii.eqb "-" "-") with true. cbv iota.
    rewrite Hread. replace (k =? 0) with false by (symmetry; apply Z.eqb_neq; lia).
    f_equal. lia.
  - apply Z.ltb_ge in Hneg.
    destruct (Hnonneg n Hneg) as (d & tail & k & Hd & Hk & Hhead & Hread).
    destruct (digit_char_spec d Hd) as (_ & _ & Hsp & Hminus & Hplus).
    rewrite Hhead in *. cbn [append skip_ws]. rewrite Hsp.
    cbn [read_sign]. rewrite Hminus, Hplus.
    cbn [append] in Hread. rewrite Hread.
    replace (k =? 0) with false by (symmetry; apply Z.eqb_neq; lia).
    reflexivity.
Qed.

(** [%f] reads back what [%f] wrote for zero and for the prices of the
    table. *)
Lemma scan_f_fmt_f_price :
  forall x rest,
    In x (fzero :: priceList) ->
    scan_f (fmt_f x ++ String " " rest) = Conv x (String " " rest).
Proof.
  intros x rest Hx. simpl in Hx.
  repeat (destruct Hx as [<-|Hx]; [vm_compute; reflexivity|]). contradiction.
Qed.

Lemma skip_ws_idem : forall s, skip_ws (skip_ws s) = skip_ws s.
Proof.
  induction s as [|c s IH]; simpl; [reflexivity|].
  destruct (isspace c) eqn:E; [exact IH|]. simpl. rewrite E. reflexivity.
Qed.

Lemma scan_s_skip_ws : forall s, scan_s (skip_ws s) = scan_s s.
Proof. intros s. unfold scan_s. rewrite skip_ws_idem. reflexivity. Qed.

Lemma scan_f_skip_ws : forall s, scan_f (skip_ws s) = scan_f s.
Proof. intros s. unfold scan_f. rewrite skip_ws_idem. reflexivity. Qed.

Lemma scan_d_skip_ws : forall s, scan_d (skip_ws s) = scan_d s.
Proof. intros s. unfold scan_d. rewrite skip_ws_idem. reflexivity. Qed.

Lemma scan_s_space :
  forall c s, isspace c = true -> scan_s (String c s) = scan_s s.
Proof. intros c s H. unfold scan_s. cbn [skip_ws]. rewrite H. reflexivity. Qed.

Lemma scan_f_space :
  forall c s, isspace c = true -> scan_f (String c s) = scan_f s.
Proof. intros c s H. unfold scan_f. cbn [skip_ws]. rewrite H. reflexivity. Qed.

Lemma scan_d_space :
  forall c s, isspace c = true -> scan_d (String c s) = scan_d s.
Proof. intros c s H. unfold scan_d. cbn [skip_ws]. rewrite H. reflexivity. Qed.

(** One line written by [filing] for a plain record is read back by one
    [fscanf] as that record; the line feed stays unread. *)
Lemma fscanf_user_record_line :
  forall u rest temp,
    plain_record u ->
    fscanf_user (record_line u ++ rest) temp = (Assigned 5, u, newline ++ rest) /\
    fscanf_user (newline ++ record_line u ++ rest) temp
      = (Assigned 5, u, newline ++ rest).
Proof.
  intros [name pass dest x n] rest temp (Hname & Hpass & Hdest & Hprice).
  simpl in Hname, Hpass, Hdest, Hprice.
  assert (Hline : record_line (mkUser name pass dest x n) ++ rest =
                  name ++ String " " (pass ++ String " " (dest ++ String " "
                    (fmt_f x ++ String " " (fmt_d n ++ String "010" rest))))).
  { unfold record_line, newline. cbn [username password place price numberTicket].
    repeat (rewrite append_assoc; cbn [append]). reflexivity. }
  assert (Hfirst : fscanf_user (record_line (mkUser name pass dest x n) ++ rest) temp
                   = (Assigned 5, mkUser name pass dest x n, newline ++ rest)).
  { rewrite Hline. unfold fscanf_user.
    rewrite (scan_s_token name " " _ Hname eq_refl).
    rewrite scan_s_skip_ws, (scan_s_space " " _ eq_refl).
    rewrite (scan_s_token pass " " _ Hpass eq_refl).
    rewrite scan_s_skip_ws, (scan_s_space " " _ eq_refl).
    rewrite (scan_s_token dest " " _ Hdest eq_refl).
    rewrite scan_f_skip_ws, (scan_f_space " " _ eq_refl).
    rewrite (scan_f_fmt_f_price x _ Hprice).
    rewrite scan_d_skip_ws, (scan_d_space " " _ eq_refl).
    rewrite (scan_d_fmt_d n "010" rest eq_refl).
    reflexivity. }
  split; [exact Hfirst|].
  rewrite <- Hfirst. unfold fscanf_user, newline. cbn [append].
  rewrite (scan_s_space "010" _ eq_refl). reflexivity.
Qed.

Lemma read_users_file_text :
  forall userptr fuel temp,
    Forall plain_record userptr ->
    (List.length userptr < fuel)%nat ->
    read_users fuel (file_text userptr) temp = Some userptr /\
    read_users fuel (newline ++ file_text userptr) temp = Some userptr.
Proof.
  induction userptr as [|u next IH]; intros fuel temp Hplain Hfuel.
  - destruct fuel; [simpl in Hfuel; lia|]. split; reflexivity.
  - destruct fuel as [|fuel]; [simpl in Hfuel; lia|].
    inversion Hplain as [|? ? Hu Hnext]; subst.
    destruct (fscanf_user_record_line u (file_text next) temp Hu) as [H1 H2].
    destruct (IH fuel u Hnext ltac:(simpl in Hfuel; lia)) as [_ Hrest].
    cbn [read_users file_text]. rewrite H1, H2.
    rewrite Hrest. split; reflexivity.
Qed.

Lemma file_text_length :
  forall userptr, (List.length userptr <= String.length (file_text userptr))%nat.
Proof.
  induction userptr as [|u next IH]; simpl; [lia|].
  rewrite append_length. unfold record_line.
  repeat rewrite append_length. simpl. lia.
Qed.

(** X1: saving and loading give the list back when no text field is
    empty or holds white space and every price is zero or a price of the
    table, whatever the numbers of tickets and whatever the local [temp]
    held. *)
Theorem save_load_plain_records :
  forall (userptr : list user) (temp : user) (g : globals),
    Forall plain_record userptr ->
    initializeUser [] temp (filing userptr g) = Loaded userptr.
Proof.
  intros userptr temp g Hplain. unfold initializeUser, filing, set_disk. simpl disk.
  destruct userptr as [|u next]; [reflexivity|].
  pose proof (file_text_length (u :: next)) as Hlen.
  destruct (read_users_file_text (u :: next)
              (S (String.length (file_text (u :: next)))) temp Hplain
              ltac:(lia)) as [Hread _].
  destruct (file_text (u :: next)) as [|c text] eqn:Htext.
  - simpl in Hlen. lia.
  - rewrite Hread. reflexivity.
Qed.

Lemma save_load_plain_records_witness :
  initializeUser [] alice_bangkok (filing [bob; alice] startup) = Loaded [bob; alice].
Proof.
  apply (save_load_plain_records [bob; alice] alice_bangkok startup).
  repeat constructor; simpl; auto.
Defined.

(** ** Saving and loading *)

(** The line written for alice's booking is read back as two records. *)
Lemma load_booked_record :
  forall temp : user,
    initializeUser [] temp (filing [alice_bangkok] startup) =
      Loaded [mkUser "alice" "pw1" "Bangkok," (price temp) (numberTicket temp);
              mkUser "Thailand" "250000.000000" "2" (price temp) (numberTicket temp)].
Proof.
  intros temp. destruct temp; vm_compute; reflexivity.
Qed.

(** C1, failing input: the list holding the one record of alice with two
    tickets for Bangkok is written as one line, and that line is read
    back as two records, the first with the place cut at the blank and
    with whatever price and count the local [temp] held, the second made
    of the rest of the line; a password with a blank is cut the same
    way. *)
Theorem save_load_booked_record :
  forall temp : user,
    file_text [alice_bangkok] =
      "alice pw1 Bangkok, Thailand 250000.000000 2" ++ newline /\
    initializeUser [] temp (filing [alice_bangkok] startup) =
      Loaded [mkUser "alice" "pw1" "Bangkok," (price temp) (numberTicket temp);
              mkUser "Thailand" "250000.000000" "2" (price temp) (numberTicket temp)] /\
    initializeUser [] temp (filing [alice_bangkok] startup) <> Loaded [alice_bangkok] /\
    initializeUser [] temp (filing [new_user "carol" "open sesame"] startup)
      <> Loaded [new_user "carol" "open sesame"].
Proof.
  intros temp.
  split; [reflexivity|]. split; [apply load_booked_record|]. split.
  - rewrite load_booked_record. discriminate.
  - destruct temp; vm_compute. discriminate.
Qed.

(** C3, failing input: every record of the list [bob; alice with two
    tickets for Bangkok] satisfies the invariant; the file written from
    it is read back, whatever [temp] held, with alice's place cut to
    "Bangkok," and her price and count left at bob's zeros, which breaks
    the invariant.  The same happens to the list holding alice alone
    when [temp] starts zeroed. *)
Theorem save_load_breaks_booking_invariant :
  forall temp : user,
    forallb booking_invariant [bob; alice_bangkok] = true /\
    initializeUser [] temp (filing [bob; alice_bangkok] startup) =
      Loaded [bob; mkUser "alice" "pw1" "Bangkok," fzero 0;
              mkUser "Thailand" "250000.000000" "2" fzero 0] /\
    booking_invariant (mkUser "alice" "pw1" "Bangkok," fzero 0) = false /\
    forallb booking_invariant [alice_bangkok] = true /\
    exists nodes,
      initializeUser [] (mkUser "" "" "" fzero 0) (filing [alice_bangkok] startup)
        = Loaded nodes /\
      forallb booking_invariant nodes = false.
Proof.
  intros temp. split; [reflexivity|]. split; [vm_compute; reflexivity|].
  split; [reflexivity|]. split; [reflexivity|].
  eexists; split; [apply load_booked_record | reflexivity].
Qed.

(** ** Scenarios *)

(** Register alice, log in, book tour 3 with two tickets, read the total,
    cancel, book again. *)
Example scenario_book_cancel_book :
  let '(l1, g1, r1) := addUser [] "alice" "pw1" startup in
  let '(l2, g2, r2) := login l1 "alice" "pw1" g1 in
  let '(l3, g3, r3) := booking l2 "3" "1" (Some 2) g2 in
  let '(l4, g4, r4) := cancellation l3 g3 in
  let '(l5, g5, r5) := booking l4 "3" "1" (Some 2) g4 in
  r1 = AccountCreated /\ r2 = LoginSuccessful /\
  r3 = BookingCompleted /\ l3 = [alice_bangkok] /\
  checkTicket l3 g3 = TicketTotal 2 (float_of_int 500000) "Bangkok, Thailand" /\
  r4 = Cancelled "Bangkok, Thailand" 2 (float_of_int 500000) /\ l4 = [alice] /\
  r5 = BookingCompleted /\ l5 = [alice_bangkok].
Proof.
  vm_compute. repeat split.
Qed.

(** Registering bob twice. *)
Example scenario_register_twice :
  let '(l1, g1, r1) := addUser [] "bob" "pw2" startup in
  let '(l2, g2, r2) := addUser l1 "bob" "pw2" g1 in
  r1 = AccountCreated /\ r2 = UsernameExists /\ l2 = l1 /\ g2 = g1.
Proof.
  vm_compute. repeat split.
Qed.

(** A wrong current password leaves the stored password as it was. *)
Example scenario_change_password_refused :
  let '(l, g, r) := changePassword [alice] "guess" "new" (alice_session None) in
  r = IncorrectPassword /\ l = [alice].
Proof.
  vm_compute. repeat split.
Qed.

(** After bob and alice registered, alice's login leaves [main] with her
    node only, and her booking rewrites the file without bob. *)
Example scenario_login_drops_bob :
  let c := mkConsole "alice" "pw1" "3" "1" (Some 2) "" in
  match main_step 2 c [bob; alice] (filing [bob; alice] startup) with
  | Some (l1, g1) =>
      l1 = [alice] /\
      match main_step 1 c l1 g1 with
      | Some (l2, g2) =>
          l2 = [alice_bangkok] /\
          disk g2 = Some ("alice pw1 Bangkok, Thailand 250000.000000 2" ++ newline)
      | None => False
      end
  | None => False
  end.
Proof.
  vm_compute. repeat split.
Qed.

(** * Further properties of the operations *)

(** ** Lookup, registration and login *)

Lemma find_user_first :
  forall name before u after,
    username u = name -> username_taken name before = false ->
    find_user name (before ++ u :: after) = Some u.
Proof.
  intros name before u after Hu.
  induction before as [|v before IH]; simpl; intros Hfree.
  - rewrite Hu, String.eqb_refl. reflexivity.
  - destruct (String.eqb (username v) name); [discriminate | auto].
Qed.

Lemma store_user_first :
  forall name before u u' after,
    username u = name -> username_taken name before = false ->
    store_user name u' (before ++ u :: after) = (before ++ u' :: after)%list.
Proof.
  intros name before u u' after Hu.
  induction before as [|v before IH]; simpl; intros Hfree.
  - rewrite Hu, String.eqb_refl. reflexivity.
  - destruct (String.eqb (username v) name); [discriminate|].
    rewrite (IH Hfree). reflexivity.
Qed.

Lemma find_user_app_new :
  forall name other userptr pass,
    find_user other (userptr ++ [new_user name pass]) =
      match find_user other userptr with
      | Some u => Some u
      | None => if String.eqb name other then Some (new_user name pass) else None
      end.
Proof.
  intros name other userptr pass.
  induction userptr as [|v next IH]; simpl; [reflexivity|].
  destruct (String.eqb (username v) other); [reflexivity | exact IH].
Qed.

Lemma username_taken_find :
  forall name userptr,
    username_taken name userptr = false -> find_user name userptr = None.
Proof.
  intros name userptr; induction userptr as [|v next IH]; simpl; [reflexivity|].
  destruct (String.eqb (username v) name); [discriminate | exact IH].
Qed.

(** The loop of [login] and the lookup loop of the other operations stop
    at the same node. *)
Lemma login_result_find_user :
  forall userptr name pass g,
    snd (login userptr name pass g) =
      match find_user name userptr with
      | None => UserNotFound
      | Some u =>
          if String.eqb (password u) pass then LoginSuccessful else WrongPassword
      end.
Proof.
  intros userptr name pass g.
  induction userptr as [|v next IH]; simpl; [reflexivity|].
  destruct (String.eqb (username v) name); simpl; [|exact IH].
  destruct (String.eqb (password v) pass); reflexivity.
Qed.

(** What [login] does to the globals. *)
Lemma login_globals :
  forall userptr name pass g,
    (snd (login userptr name pass g) = LoginSuccessful ->
       snd (fst (login userptr name pass g)) = mkGlobals loggedIn name (disk g)) /\
    (snd (login userptr name pass g) <> LoginSuccessful ->
       snd (fst (login userptr name pass g)) = g).
Proof.
  intros userptr name pass g.
  induction userptr as [|v next IH]; simpl.
  - split; [discriminate | reflexivity].
  - destruct (String.eqb (username v) name); simpl; [|exact IH].
    destruct (String.eqb (password v) pass); simpl.
    + split; [reflexivity | intros H; contradiction H; reflexivity].
    + split; [discriminate | reflexivity].
Qed.

(** X7: [login] is decided by the first record that carries the username:
    its password alone gives [LoginSuccessful] or [WrongPassword], and
    there being none gives [UserNotFound].  A successful login returns a
    node of the list whose username and password are the ones typed and
    records that user as the current one; any other outcome leaves the
    globals as they were. *)
Theorem login_decided_by_first_record :
  forall (userptr : list user) (name pass : string) (g : globals),
    snd (login userptr name pass g) =
      match find_user name userptr with
      | None => UserNotFound
      | Some u =>
          if String.eqb (password u) pass then LoginSuccessful else WrongPassword
      end /\
    (snd (login userptr name pass g) = LoginSuccessful ->
       exists u next,
         fst (fst (login userptr name pass g)) = u :: next /\
         In u userptr /\ username u = name /\ password u = pass /\
         snd (fst (login userptr name pass g)) = mkGlobals loggedIn name (disk g)) /\
    (snd (login userptr name pass g) <> LoginSuccessful ->
       snd (fst (login userptr name pass g)) = g).
Proof.
  intros userptr name pass g. split; [apply login_result_find_user|].
  induction userptr as [|v next IH]; simpl.
  - split; [discriminate | reflexivity].
  - destruct (String.eqb (username v) name) eqn:Ev; simpl.
    + destruct (String.eqb (password v) pass) eqn:Ep; simpl.
      * split; [|intros H; contradiction H; reflexivity].
        intros _. exists v, next.
        apply String.eqb_eq in Ev. apply String.eqb_eq in Ep. auto 6.
      * split; [discriminate | reflexivity].
    + destruct IH as [IHok IHfail]. split; [|exact IHfail].
      intros H. destruct (IHok H) as (u & rest & Hnode & Hin & Hrest).
      exists u, rest. split; [exact Hnode|]. split; [right; exact Hin | exact Hrest].
Qed.

(** X8: when [addUser] creates the account, looking the new username up
    finds the new record with no booking, every other username is found
    as before, the list is one record longer, the file holds the whole
    new list, and the session state is untouched. *)
Theorem addUser_created_lookup :
  forall (userptr : list user) (name pass : string) (g : globals)
         (userptr' : list user) (g' : globals),
    addUser userptr name pass g = (userptr', g', AccountCreated) ->
    find_user name userptr' = Some (new_user name pass) /\
    (forall other, other <> name -> find_user other userptr' = find_user other userptr) /\
    List.length userptr' = S (List.length userptr) /\
    disk g' = Some (file_text userptr') /\
    currentStatus g' = currentStatus g /\ currentUser g' = currentUser g.
Proof.
  intros userptr name pass g userptr' g'. unfold addUser.
  destruct (username_taken name userptr) eqn:Hfree; [discriminate|].
  intros [= <- <-]. repeat split.
  - rewrite find_user_app_new, (username_taken_find _ _ Hfree), String.eqb_refl.
    reflexivity.
  - intros other Hother. rewrite find_user_app_new.
    destruct (find_user other userptr); [reflexivity|].
    replace (String.eqb name other) with false; [reflexivity|].
    symmetry. apply String.eqb_neq. congruence.
  - rewrite length_app. simpl. lia.
Qed.

Lemma addUser_created_lookup_witness :
  find_user "alice" [bob; alice] = Some (new_user "alice" "pw1") /\
  (forall other, other <> "alice" -> find_user other [bob; alice] = find_user other [bob]) /\
  List.length [bob; alice] = S (List.length [bob]) /\
  disk (filing [bob; alice] startup) = Some (file_text [bob; alice]) /\
  currentStatus (filing [bob; alice] startup) = currentStatus startup /\
  currentUser (filing [bob; alice] startup) = currentUser startup.
Proof.
  apply (addUser_created_lookup [bob] "alice" "pw1" startup). reflexivity.
Defined.

(** ** Usernames stay distinct *)

Lemma store_user_usernames :
  forall name u' userptr,
    username u' = name ->
    map username (store_user name u' userptr) = map username userptr.
Proof.
  intros name u' userptr Hu'.
  induction userptr as [|v next IH]; simpl; [reflexivity|].
  destruct (String.eqb (username v) name) eqn:E; simpl.
  - apply String.eqb_eq in E. congruence.
  - rewrite IH. reflexivity.
Qed.

Lemma username_taken_map :
  forall name userptr,
    username_taken name userptr = false -> ~ In name (map username userptr).
Proof.
  intros name userptr; induction userptr as [|v next IH]; simpl; [tauto|].
  destruct (String.eqb (username v) name) eqn:E; [discriminate|].
  apply String.eqb_neq in E. intros Hfree [H|H]; [contradiction | exact (IH Hfree H)].
Qed.

Lemma login_suffix :
  forall userptr name pass g,
    exists before,
      userptr = (before ++ fst (fst (login userptr name pass g)))%list.
Proof.
  intros userptr name pass g.
  induction userptr as [|v next IH]; simpl; [exists []; reflexivity|].
  destruct (String.eqb (username v) name); simpl.
  - destruct (String.eqb (password v) pass); exists []; reflexivity.
  - destruct IH as [before Hb]. exists (v :: before). simpl. congruence.
Qed.

Lemma NoDup_app_tail :
  forall (A : Type) (l1 l2 : list A), NoDup (l1 ++ l2) -> NoDup l2.
Proof.
  intros A l1 l2; induction l1 as [|x l1 IH]; simpl; [auto|].
  intros H. inversion H; auto.
Qed.

Lemma NoDup_snoc :
  forall (A : Type) (l : list A) (x : A), NoDup l -> ~ In x l -> NoDup (l ++ [x]).
Proof.
  intros A l x; induction l as [|y l IH]; simpl; intros Hl Hx.
  - constructor; [tauto | constructor].
  - inversion Hl as [|? ? Hy Hl']; subst. constructor.
    + rewrite in_app_iff. simpl. intros [H|[H|[]]]; [contradiction|].
      apply Hx. left. symmetry. exact H.
    + apply IH; [exact Hl' | tauto].
Qed.

(** X6: when no two records of the list carry the same username, the same
    holds of the list every operation leaves: [addUser], [login],
    [booking], [cancellation] and [changePassword]. *)
Theorem operations_keep_usernames_distinct :
  forall (userptr : list user) (g : globals),
    NoDup (map username userptr) ->
    (forall name pass,
       NoDup (map username (fst (fst (addUser userptr name pass g))))) /\
    (forall name pass,
       NoDup (map username (fst (fst (login userptr name pass g))))) /\
    (forall code choice tickets,
       NoDup (map username (fst (fst (booking userptr code choice tickets g))))) /\
    NoDup (map username (fst (fst (cancellation userptr g)))) /\
    (forall passCurrent passNew,
       NoDup (map username
                (fst (fst (changePassword userptr passCurrent passNew g))))).
Proof.
  intros userptr g Hdistinct. repeat split.
  - intros name pass. unfold addUser.
    destruct (username_taken name userptr) eqn:Hfree; simpl; [exact Hdistinct|].
    rewrite map_app. simpl. apply NoDup_snoc; [exact Hdistinct|].
    apply username_taken_map, Hfree.
  - intros name pass. destruct (login_suffix userptr name pass g) as [before Hb].
    rewrite Hb, map_app in Hdistinct. apply (NoDup_app_tail _ _ _ Hdistinct).
  - intros code choice tickets. unfold booking.
    destruct (find_user (currentUser g) userptr) as [u|] eqn:Hfind; [|exact Hdistinct].
    pose proof (find_user_username _ _ _ Hfind) as Hname.
    destruct (negb (feq (price u) fzero)); [exact Hdistinct|].
    destruct (negb (Ascii.eqb choice "1")); [exact Hdistinct|].
    destruct (tour_of_code code) as [[tour_price tour_place]|]; [|exact Hdistinct].
    match goal with
    | |- context [numberTicket ?r =? 0] => destruct (numberTicket r =? 0)
    end; simpl; rewrite store_user_usernames; try exact Hdistinct;
      destruct tickets; exact Hname.
  - unfold cancellation.
    destruct (find_user (currentUser g) userptr) as [u|] eqn:Hfind; [|exact Hdistinct].
    pose proof (find_user_username _ _ _ Hfind) as Hname.
    destruct (cancel_flag (place u)) as [flag|]; [|exact Hdistinct].
    destruct (flag =? 0); simpl; [|exact Hdistinct].
    rewrite store_user_usernames; [exact Hdistinct | exact Hname].
  - intros passCurrent passNew. unfold changePassword.
    destruct (find_user (currentUser g) userptr) as [u|] eqn:Hfind; [|exact Hdistinct].
    pose proof (find_user_username _ _ _ Hfind) as Hname.
    destruct (String.eqb passCurrent (password u)); simpl; [|exact Hdistinct].
    rewrite store_user_usernames; [exact Hdistinct | exact Hname].
Qed.

Lemma operations_keep_usernames_distinct_witness :
  NoDup (map username (fst (fst (addUser [bob; alice] "carol" "pw3" startup)))).
Proof.
  apply (operations_keep_usernames_distinct [bob; alice] startup).
  repeat constructor; simpl; intuition discriminate.
Defined.

(** ** What the operations of a logged-in user change *)

(** X9: [booking], [cancellation] and [changePassword] rewrite at most
    the first record of the current user: the records before and after it
    stay as they are, its username stays, [booking] and [cancellation]
    keep its password, and [changePassword] keeps its booking. *)
Theorem logged_in_operations_frame :
  forall (userptr : list user) (g : globals) (before : list user) (u : user)
         (after : list user),
    userptr = (before ++ u :: after)%list ->
    username u = currentUser g ->
    username_taken (currentUser g) before = false ->
    (forall code choice tickets,
       exists u',
         fst (fst (booking userptr code choice tickets g)) = (before ++ u' :: after)%list /\
         username u' = username u /\ password u' = password u) /\
    (exists u',
       fst (fst (cancellation userptr g)) = (before ++ u' :: after)%list /\
       username u' = username u /\ password u' = password u) /\
    (forall passCurrent passNew,
       exists u',
         fst (fst (changePassword userptr passCurrent passNew g))
           = (before ++ u' :: after)%list /\
         username u' = username u /\ place u' = place u /\
         price u' = price u /\ numberTicket u' = numberTicket u).
Proof.
  intros userptr g before u after -> Hname Hfree.
  pose proof (find_user_first _ before u after Hname Hfree) as Hfind.
  assert (Hstore : forall u', store_user (currentUser g) u' (before ++ u :: after)
                              = (before ++ u' :: after)%list)
    by (intros u'; apply store_user_first; assumption).
  repeat split.
  - intros code choice tickets. unfold booking. rewrite Hfind.
    destruct (negb (feq (price u) fzero)); [exists u; auto|].
    destruct (negb (Ascii.eqb choice "1")); [exists u; auto|].
    destruct (tour_of_code code) as [[tour_price tour_place]|]; [|exists u; auto].
    match goal with
    | |- context [numberTicket ?r =? 0] => destruct (numberTicket r =? 0)
    end; simpl; rewrite Hstore; eexists; (split; [reflexivity|]);
      destruct tickets; auto.
  - unfold cancellation. rewrite Hfind.
    destruct (cancel_flag (place u)) as [flag|]; [|exists u; auto].
    destruct (flag =? 0); simpl; [|exists u; auto].
    rewrite Hstore. eexists; split; [reflexivity | auto].
  - intros passCurrent passNew. unfold changePassword. rewrite Hfind.
    destruct (String.eqb passCurrent (password u)); simpl; [|exists u; auto].
    rewrite Hstore. eexists; split; [reflexivity | auto].
Qed.

Lemma logged_in_operations_frame_witness :
  exists u',
    fst (fst (cancellation [bob; alice_bangkok; bob] (alice_session None)))
      = ([bob] ++ u' :: [bob])%list /\
    username u' = username alice_bangkok /\ password u' = password alice_bangkok.
Proof.
  apply (logged_in_operations_frame [bob; alice_bangkok; bob] (alice_session None)
           [bob] alice_bangkok [bob]); reflexivity.
Defined.

(** ** Booking *)

Lemma numberTicket_zero_of_invariant :
  forall u, booking_invariant u = true -> feq (price u) fzero = true ->
            numberTicket u = 0.
Proof.
  intros u Hinv Hprice. unfold booking_invariant in Hinv. rewrite Hprice in Hinv.
  apply andb_prop in Hinv as [_ H].
  destruct (numberTicket u =? 0) eqn:E; [apply Z.eqb_eq, E | discriminate].
Qed.

(** X10: on a list whose records satisfy the invariant of the booking
    triple, a call of [booking] that does not complete leaves the list
    and the globals, file included, exactly as they were. *)
Theorem booking_refused_changes_nothing :
  forall (userptr : list user) (code : string) (choice : ascii)
         (tickets : option Z) (g : globals),
    forallb booking_invariant userptr = true ->
    snd (booking userptr code choice tickets g) <> BookingCompleted ->
    fst (booking userptr code choice tickets g) = (userptr, g).
Proof.
  intros userptr code choice tickets g Hall. unfold booking.
  destruct (find_user (currentUser g) userptr) as [u|] eqn:Hfind; [|reflexivity].
  pose proof (forallb_find_user _ _ _ _ Hall Hfind) as Hu.
  destruct (feq (price u) fzero) eqn:Hprice; simpl; [|reflexivity].
  destruct (Ascii.eqb choice "1"); simpl; [|reflexivity].
  destruct (tour_of_code code) as [[tour_price tour_place]|]; [|reflexivity].
  pose proof (numberTicket_zero_of_invariant u Hu Hprice) as Hcount.
  destruct tickets as [n|]; simpl.
  - destruct (n =? 0) eqn:Hn; simpl; [|intros H; contradiction H; reflexivity].
    intros _. apply Z.eqb_eq in Hn. subst n.
    replace (set_numberTicket 0 u) with u
      by (destruct u; unfold set_numberTicket; simpl in *; congruence).
    rewrite (store_user_same _ _ _ Hfind). reflexivity.
  - rewrite Hcount. simpl. intros _.
    rewrite (store_user_same _ _ _ Hfind). reflexivity.
Qed.

Lemma booking_refused_changes_nothing_witness :
  fst (booking [alice; bob] "3" "1" (Some 0) (alice_session None))
  = ([alice; bob], alice_session None).
Proof.
  apply (booking_refused_changes_nothing [alice; bob] "3" "1" (Some 0)
           (alice_session None)).
  - reflexivity.
  - simpl. discriminate.
Defined.

Lemma tour_of_code_numeral :
  forall code tour,
    tour_of_code code = Some tour -> exists k, 1 <= k <= 10 /\ code = fmt_d k.
Proof.
  intros code tour. unfold tour_of_code.
  destruct (String.eqb_spec code "1") as [->|_]; [exists 1; split; [lia|reflexivity]|].
  destruct (String.eqb_spec code "2") as [->|_]; [exists 2; split; [lia|reflexivity]|].
  destruct (String.eqb_spec code "3") as [->|_]; [exists 3; split; [lia|reflexivity]|].
  destruct (String.eqb_spec code "4") as [->|_]; [exists 4; split; [lia|reflexivity]|].
  destruct (String.eqb_spec code "5") as [->|_]; [exists 5; split; [lia|reflexivity]|].
  destruct (String.eqb_spec code "6") as [->|_]; [exists 6; split; [lia|reflexivity]|].
  destruct (String.eqb_spec code "7") as [->|_]; [exists 7; split; [lia|reflexivity]|].
  destruct (String.eqb_spec code "8") as [->|_]; [exists 8; split; [lia|reflexivity]|].
  destruct (String.eqb_spec code "9") as [->|_]; [exists 9; split; [lia|reflexivity]|].
  destruct (String.eqb_spec code "10") as [->|_]; [exists 10; split; [lia|reflexivity]|].
  discriminate.
Qed.

(** X11: for a user without a booking who confirms, every code that is
    not the decimal numeral of a number from 1 to 10, such as "0", "11",
    "03" or a numeral followed by a blank, is refused as
    [InvalidTourCode] before the number of tickets is read, and nothing
    changes. *)
Theorem booking_invalid_tour_code :
  forall (userptr : list user) (code : string) (tickets : option Z)
         (g : globals) (u : user),
    find_user (currentUser g) userptr = Some u ->
    feq (price u) fzero = true ->
    (forall k, 1 <= k <= 10 -> code <> fmt_d k) ->
    booking userptr code "1" tickets g = (userptr, g, InvalidTourCode).
Proof.
  intros userptr code tickets g u Hfind Hprice Hcode. unfold booking.
  rewrite Hfind, Hprice. simpl.
  destruct (tour_of_code code) as [tour|] eqn:Htour; [|reflexivity].
  destruct (tour_of_code_numeral _ _ Htour) as (k & Hk & ->).
  exfalso. exact (Hcode k Hk eq_refl).
Qed.

Lemma booking_invalid_tour_code_witness :
  booking [alice] "03" "1" (Some 2) (alice_session None)
  = ([alice], alice_session None, InvalidTourCode).
Proof.
  apply (booking_invalid_tour_code [alice] "03" (Some 2) (alice_session None) alice).
  - reflexivity.
  - reflexivity.
  - intros k Hk.
    assert (H : k = 1 \/ k = 2 \/ k = 3 \/ k = 4 \/ k = 5 \/
                k = 6 \/ k = 7 \/ k = 8 \/ k = 9 \/ k = 10) by lia.
    repeat (destruct H as [->|H]; [discriminate|]). subst k. discriminate.
Defined.

Lemma tour_of_code_place :
  forall code tour_price tour_place,
    tour_of_code code = Some (tour_price, tour_place) ->
    String.eqb tour_place "" = false.
Proof.
  intros code tour_price tour_place. unfold tour_of_code.
  repeat (case_strcmp code; [intros [= <- <-]; reflexivity|]).
  discriminate.
Qed.

(** X12: right after a completed booking, [checkTicket] reports the
    number of tickets typed, the destination of the package chosen and
    the float product of the package price and that number, and the file
    holds the list as it now is. *)
Theorem booking_then_checkTicket :
  forall (userptr : list user) (code : string) (choice : ascii)
         (tickets : option Z) (g : globals) (userptr1 : list user) (g1 : globals),
    booking userptr code choice tickets g = (userptr1, g1, BookingCompleted) ->
    exists tour_price tour_place n,
      tour_of_code code = Some (tour_price, tour_place) /\
      n <> 0 /\
      (forall k, tickets = Some k -> n = k) /\
      checkTicket userptr1 g1 =
        TicketTotal n (fmul tour_price (float_of_int n)) tour_place /\
      disk g1 = Some (file_text userptr1).
Proof.
  intros userptr code choice tickets g userptr1 g1 Hbook.
  destruct (booking_completed_inv _ _ _ _ _ _ _ Hbook)
    as (u & tour_price & tour_place & n & Hfind & _ & Htour & Hn & Hnz & Hlist & Hg).
  destruct (tour_of_code_booked _ _ _ Htour) as (Hprice & _ & _).
  pose proof (tour_of_code_place _ _ _ Htour) as Hplace.
  exists tour_price, tour_place, n. repeat split; try assumption.
  - intros k ->. exact Hn.
  - unfold checkTicket. rewrite Hg, filing_currentUser, Hlist.
    rewrite (find_user_store _ _ u
               (mkUser (username u) (password u) tour_place tour_price n)
               Hfind (find_user_username _ _ _ Hfind)).
    simpl. rewrite Hplace, Hprice.
    replace (n =? 0) with false by (symmetry; apply Z.eqb_neq; exact Hnz).
    reflexivity.
  - rewrite Hg. reflexivity.
Qed.

Lemma booking_then_checkTicket_witness :
  exists tour_price tour_place n,
    tour_of_code "3" = Some (tour_price, tour_place) /\
    n <> 0 /\
    (forall k, Some 2 = Some k -> n = k) /\
    checkTicket [alice_bangkok] (filing [alice_bangkok] (alice_session None)) =
      TicketTotal n (fmul tour_price (float_of_int n)) tour_place /\
    disk (filing [alice_bangkok] (alice_session None)) = Some (file_text [alice_bangkok]).
Proof.
  apply (booking_then_checkTicket [alice] "3" "1" (Some 2) (alice_session None)).
  reflexivity.
Defined.

(** ** Cancellation *)

(** X13: when [checkTicket] shows a total for one of the ten
    destinations, [cancellation] refunds exactly the amount shown, for
    the same destination and number of tickets. *)
Theorem cancellation_refunds_total_shown :
  forall (userptr : list user) (g : globals) (n : Z) (total : float)
         (destination : string),
    checkTicket userptr g = TicketTotal n total destination ->
    is_destination destination = true ->
    snd (cancellation userptr g) = Cancelled destination n total.
Proof.
  intros userptr g n total destination. unfold checkTicket, cancellation.
  destruct (find_user (currentUser g) userptr) as [u|]; [|discriminate].
  destruct (String.eqb (place u) "" || feq (price u) fzero || (numberTicket u =? 0))%bool;
    [discriminate|].
  intros [= <- <- <-] Hdest.
  rewrite cancel_flag_destination, Hdest. reflexivity.
Qed.

Lemma cancellation_refunds_total_shown_witness :
  snd (cancellation [alice_bangkok] (alice_session None))
  = Cancelled "Bangkok, Thailand" 2 (float_of_int 500000).
Proof.
  apply (cancellation_refunds_total_shown [alice_bangkok] (alice_session None)
           2 (float_of_int 500000) "Bangkok, Thailand"); reflexivity.
Defined.

Lemma cancellation_cancelled_inv :
  forall userptr g userptr1 g1 destination n refund,
    cancellation userptr g = (userptr1, g1, Cancelled destination n refund) ->
    exists u,
      find_user (currentUser g) userptr = Some u /\
      userptr1 = store_user (currentUser g) (cleared u) userptr /\
      g1 = filing userptr1 g /\
      find_user (currentUser g1) userptr1 = Some (cleared u).
Proof.
  intros userptr g userptr1 g1 destination n refund. unfold cancellation.
  destruct (find_user (currentUser g) userptr) as [u|] eqn:Hfind; [|discriminate].
  destruct (cancel_flag (place u)) as [flag|]; [|discriminate].
  destruct (flag =? 0); [|discriminate].
  intros [= <- <- _ _ _]. exists u. repeat split.
  rewrite filing_currentUser.
  apply (find_user_store _ _ u); [exact Hfind|].
  apply (find_user_username _ _ _ Hfind).
Qed.

(** X14: after a cancellation went through, [checkTicket] finds no
    ticket, a second [cancellation] reports [NoTourBooked] and changes
    nothing, and a confirmed [booking] of any of the ten tours with a
    number of tickets other than zero completes. *)
Theorem after_cancellation :
  forall (userptr : list user) (g : globals) (userptr1 : list user) (g1 : globals)
         (destination : string) (n : Z) (refund : float),
    cancellation userptr g = (userptr1, g1, Cancelled destination n refund) ->
    checkTicket userptr1 g1 = NoTicketBooked /\
    cancellation userptr1 g1 = (userptr1, g1, NoTourBooked) /\
    (forall k m, 1 <= k <= 10 -> m <> 0 ->
       snd (booking userptr1 (fmt_d k) "1" (Some m) g1) = BookingCompleted).
Proof.
  intros userptr g userptr1 g1 destination n refund Hcancel.
  destruct (cancellation_cancelled_inv _ _ _ _ _ _ _ Hcancel)
    as (u & _ & _ & _ & Hfind1).
  split; [|split].
  - unfold checkTicket. rewrite Hfind1. reflexivity.
  - unfold cancellation. rewrite Hfind1. reflexivity.
  - intros k m Hk Hm.
    unfold booking. rewrite Hfind1, (tour_of_code_index k Hk). simpl.
    destruct (package (Z.to_nat (k - 1))) as [tour_price tour_place].
    replace (m =? 0) with false by (symmetry; apply Z.eqb_neq; exact Hm).
    reflexivity.
Qed.

Lemma after_cancellation_witness :
  checkTicket [alice] (filing [alice] (alice_session None)) = NoTicketBooked /\
  cancellation [alice] (filing [alice] (alice_session None))
    = ([alice], filing [alice] (alice_session None), NoTourBooked) /\
  (forall k m, 1 <= k <= 10 -> m <> 0 ->
     snd (booking [alice] (fmt_d k) "1" (Some m) (filing [alice] (alice_session None)))
       = BookingCompleted).
Proof.
  apply (after_cancellation [alice_bangkok] (alice_session None) [alice]
           (filing [alice] (alice_session None))
           "Bangkok, Thailand" 2 (float_of_int 500000)).
  reflexivity.
Defined.

(** X15: a record whose price is not zero and whose place is none of
    the ten destinations, as a booked record comes back from the file,
    can be neither booked nor cancelled: [booking] reports
    [AlreadyBooked] whatever is typed, [cancellation] reports
    [NoTourBooked], and neither changes anything. *)
Theorem record_neither_booked_nor_cancelled :
  forall (userptr : list user) (g : globals) (u : user),
    find_user (currentUser g) userptr = Some u ->
    feq (price u) fzero = false ->
    is_destination (place u) = false ->
    (forall code choice tickets,
       booking userptr code choice tickets g = (userptr, g, AlreadyBooked)) /\
    cancellation userptr g = (userptr, g, NoTourBooked).
Proof.
  intros userptr g u Hfind Hprice Hplace. split.
  - intros code choice tickets. unfold booking. rewrite Hfind, Hprice. reflexivity.
  - unfold cancellation. rewrite Hfind, cancel_flag_destination, Hplace. reflexivity.
Qed.

Lemma record_neither_booked_nor_cancelled_witness :
  (forall code choice tickets,
     booking [mkUser "alice" "pw1" "Bangkok," (float_of_int 250000) 2]
             code choice tickets (alice_session None)
     = ([mkUser "alice" "pw1" "Bangkok," (float_of_int 250000) 2],
        alice_session None, AlreadyBooked)) /\
  cancellation [mkUser "alice" "pw1" "Bangkok," (float_of_int 250000) 2]
               (alice_session None)
  = ([mkUser "alice" "pw1" "Bangkok," (float_of_int 250000) 2],
     alice_session None, NoTourBooked).
Proof.
  apply (record_neither_booked_nor_cancelled
           [mkUser "alice" "pw1" "Bangkok," (float_of_int 250000) 2]
           (alice_session None)
           (mkUser "alice" "pw1" "Bangkok," (float_of_int 250000) 2));
    reflexivity.
Defined.

(** ** Changing the password *)

(** X16: for the record of the current user, [changePassword] with
    the stored password typed replaces it, after which [login] succeeds
    with the new password and reports [WrongPassword] for the old one
    when the two differ; with any other password typed the list stays as
    it was, and the file is rewritten from it all the same. *)
Theorem changePassword_then_login :
  forall (userptr : list user) (passCurrent passNew : string) (g : globals) (u : user),
    find_user (currentUser g) userptr = Some u ->
    (passCurrent = password u ->
       snd (changePassword userptr passCurrent passNew g) = PasswordUpdated /\
       forall g2,
         snd (login (fst (fst (changePassword userptr passCurrent passNew g)))
                    (currentUser g) passNew g2) = LoginSuccessful /\
         (passCurrent <> passNew ->
          snd (login (fst (fst (changePassword userptr passCurrent passNew g)))
                     (currentUser g) passCurrent g2) = WrongPassword)) /\
    (passCurrent <> password u ->
       changePassword userptr passCurrent passNew g =
         (userptr, filing userptr g, IncorrectPassword)).
Proof.
  intros userptr passCurrent passNew g u Hfind.
  pose proof (find_user_username _ _ _ Hfind) as Hname.
  unfold changePassword. rewrite Hfind. split.
  - intros ->. rewrite String.eqb_refl. simpl. split; [reflexivity|].
    intros g2. rewrite !login_result_find_user.
    rewrite (find_user_store _ _ u (set_password passNew u) Hfind Hname). simpl.
    rewrite String.eqb_refl. split; [reflexivity|].
    intros Hdiff. apply String.eqb_neq in Hdiff.
    rewrite String.eqb_sym, Hdiff. reflexivity.
  - intros Hdiff. apply String.eqb_neq in Hdiff. rewrite Hdiff. reflexivity.
Qed.

Lemma changePassword_then_login_witness :
  changePassword [alice; bob] "guess" "new" (alice_session None)
  = ([alice; bob], filing [alice; bob] (alice_session None), IncorrectPassword).
Proof.
  apply (proj2 (changePassword_then_login [alice; bob] "guess" "new"
                  (alice_session None) alice eq_refl)).
  discriminate.
Defined.

(** ** The session kept by the menu loop *)

Lemma store_user_head :
  forall name u' userptr u next,
    userptr = u :: next -> username u = name -> username u' = name ->
    exists next', store_user name u' userptr = u' :: next'.
Proof.
  intros name u' userptr u next -> Hu Hu'. simpl.
  rewrite Hu, String.eqb_refl. exists next. reflexivity.
Qed.

Lemma login_session :
  forall userptr name pass g,
    currentStatus g = menu ->
    session_ok (fst (fst (login userptr name pass g)))
               (snd (fst (login userptr name pass g))).
Proof.
  intros userptr name pass g Hmenu.
  induction userptr as [|v next IH]; simpl.
  - intros H. congruence.
  - destruct (String.eqb (username v) name) eqn:Ev; simpl; [|exact IH].
    destruct (String.eqb (password v) pass); simpl.
    + intros _. exists v, next. split; [reflexivity|]. apply String.eqb_eq, Ev.
    + intros H. congruence.
Qed.

Lemma addUser_session :
  forall userptr name pass g,
    currentStatus g = menu ->
    session_ok (fst (fst (addUser userptr name pass g)))
               (snd (fst (addUser userptr name pass g))).
Proof.
  intros userptr name pass g Hmenu. unfold addUser.
  destruct (username_taken name userptr); simpl; intros H; simpl in H; congruence.
Qed.

Lemma store_user_session :
  forall userptr g u' g0,
    session_ok userptr g -> currentStatus g = loggedIn ->
    username u' = currentUser g -> currentUser g0 = currentUser g ->
    session_ok (store_user (currentUser g) u' userptr) g0.
Proof.
  intros userptr g u' g0 Hok Hin Hu' Hg0 _.
  destruct (Hok Hin) as (u & next & Hlist & Hname).
  destruct (store_user_head _ u' _ _ _ Hlist Hname Hu') as [next' ->].
  exists u', next'. split; [reflexivity | congruence].
Qed.

Lemma session_find_user :
  forall userptr g,
    session_ok userptr g -> currentStatus g = loggedIn ->
    exists u, find_user (currentUser g) userptr = Some u /\
              username u = currentUser g.
Proof.
  intros userptr g Hok Hin. destruct (Hok Hin) as (u & next & -> & Hname).
  exists u. simpl. rewrite Hname, String.eqb_refl. auto.
Qed.

Lemma booking_session :
  forall userptr code choice tickets g,
    session_ok userptr g -> currentStatus g = loggedIn ->
    session_ok (fst (fst (booking userptr code choice tickets g)))
               (snd (fst (booking userptr code choice tickets g))).
Proof.
  intros userptr code choice tickets g Hok Hin.
  destruct (session_find_user _ _ Hok Hin) as (u & Hfind & Hname).
  unfold booking. rewrite Hfind.
  destruct (negb (feq (price u) fzero)); [exact Hok|].
  destruct (negb (Ascii.eqb choice "1")); [exact Hok|].
  destruct (tour_of_code code) as [[tour_price tour_place]|]; [|exact Hok].
  match goal with
  | |- context [numberTicket ?r =? 0] => destruct (numberTicket r =? 0)
  end; simpl; apply store_user_session; try assumption; try reflexivity;
    destruct tickets; exact Hname.
Qed.

Lemma cancellation_session :
  forall userptr g,
    session_ok userptr g -> currentStatus g = loggedIn ->
    session_ok (fst (fst (cancellation userptr g)))
               (snd (fst (cancellation userptr g))).
Proof.
  intros userptr g Hok Hin.
  destruct (session_find_user _ _ Hok Hin) as (u & Hfind & Hname).
  unfold cancellation. rewrite Hfind.
  destruct (cancel_flag (place u)) as [flag|]; [|exact Hok].
  destruct (flag =? 0); [|exact Hok].
  simpl. apply store_user_session; try assumption; reflexivity.
Qed.

Lemma changePassword_session :
  forall userptr passCurrent passNew g,
    session_ok userptr g -> currentStatus g = loggedIn ->
    session_ok (fst (fst (changePassword userptr passCurrent passNew g)))
               (snd (fst (changePassword userptr passCurrent passNew g))).
Proof.
  intros userptr passCurrent passNew g Hok Hin.
  destruct (session_find_user _ _ Hok Hin) as (u & Hfind & Hname).
  unfold changePassword. rewrite Hfind.
  destruct (String.eqb passCurrent (password u)); simpl.
  - apply store_user_session; try assumption; reflexivity.
  - intros _. exact (Hok Hin).
Qed.

Lemma logout_session :
  forall userptr g, session_ok userptr g -> session_ok userptr (fst (logout g)).
Proof.
  intros userptr g Hok. unfold logout.
  destruct (currentStatus g) eqn:Hstatus; [exact Hok|].
  destruct (String.eqb (currentUser g) ""); simpl; [exact Hok|].
  intros H. discriminate.
Qed.

(** Closes the case of [main_step] that runs the operation [op]. *)
Ltac step_case lemma :=
  let H := fresh "H" in
  pose proof lemma as H;
  match type of H with
  | session_ok (fst (fst ?op)) _ =>
      destruct op as [[? ?] ?]; intros [= <- <-]; exact H
  end.

(** One iteration of the menu loop keeps the session well formed. *)
Lemma main_step_session :
  forall choice c userptr g p g',
    session_ok userptr g ->
    main_step choice c userptr g = Some (p, g') ->
    session_ok p g'.
Proof.
  intros choice c userptr g p g' Hok. unfold main_step.
  assert (Hsame : Some (userptr, g) = Some (p, g') -> session_ok p g')
    by (intros [= <- <-]; exact Hok).
  destruct (currentStatus g) eqn:Hstatus.
  - destruct choice as [|q|q]; try exact Hsame.
    do 3 (try (destruct q as [q|q|]; try exact Hsame; try discriminate)).
    + step_case (login_session userptr (typed_name c) (typed_pass c) g Hstatus).
    + step_case (addUser_session userptr (typed_name c) (typed_pass c) g Hstatus).
  - destruct choice as [|q|q]; try exact Hsame.
    do 3 (try (destruct q as [q|q|]; try exact Hsame; try discriminate)).
    + intros [= <- <-]. apply logout_session, Hok.
    + step_case (cancellation_session userptr g Hok Hstatus).
    + step_case (changePassword_session userptr (typed_pass c) (typed_new_pass c)
                   g Hok Hstatus).
    + destruct (checkTicket userptr g); [discriminate | exact Hsame | exact Hsame].
    + step_case (booking_session userptr (typed_code c) (typed_choice c)
                   (typed_tickets c) g Hok Hstatus).
Qed.

Lemma run_session :
  forall steps userptr g p g',
    session_ok userptr g -> run steps userptr g = Some (p, g') -> session_ok p g'.
Proof.
  induction steps as [|[choice c] steps IH]; intros userptr g p g' Hok; simpl.
  - intros [= <- <-]. exact Hok.
  - destruct (main_step choice c userptr g) as [[p0 g0]|] eqn:Hstep; [|discriminate].
    apply IH. exact (main_step_session _ _ _ _ _ _ Hok Hstep).
Qed.

(** X17: in every state the menu loop reaches from the main menu,
    whatever list was loaded and whatever is selected and typed, a
    logged-in user is the head of the list [main] holds; so the lookups
    of [checkTicket], [booking], [cancellation] and [changePassword]
    always find a record, and [checkTicket] never reads through [NULL]. *)
Theorem run_finds_current_user :
  forall (steps : list (Z * console)) (userptr : list user) (g : globals)
         (p : list user) (g' : globals),
    currentStatus g = menu ->
    run steps userptr g = Some (p, g') ->
    currentStatus g' = loggedIn ->
    (exists u next, p = u :: next /\ username u = currentUser g') /\
    checkTicket p g' <> NullUser /\
    (forall code choice tickets,
       snd (booking p code choice tickets g') <> BookingNoUser) /\
    snd (cancellation p g') <> CancelUserNotFound /\
    (forall passCurrent passNew,
       snd (changePassword p passCurrent passNew g') <> PasswordNoUser).
Proof.
  intros steps userptr g p g' Hmenu Hrun Hin.
  assert (Hok : session_ok userptr g) by (intros H; congruence).
  destruct (run_session _ _ _ _ _ Hok Hrun Hin) as (u & next & -> & Hname).
  assert (Hfind : find_user (currentUser g') (u :: next) = Some u)
    by (simpl; rewrite Hname, String.eqb_refl; reflexivity).
  split; [exists u, next; auto|]. repeat split.
  - unfold checkTicket. rewrite Hfind.
    destruct (String.eqb (place u) "" || feq (price u) fzero ||
              (numberTicket u =? 0))%bool; discriminate.
  - intros code choice tickets. unfold booking. rewrite Hfind.
    destruct (negb (feq (price u) fzero)); [discriminate|].
    destruct (negb (Ascii.eqb choice "1")); [discriminate|].
    destruct (tour_of_code code) as [[tour_price tour_place]|]; [|discriminate].
    match goal with
    | |- context [numberTicket ?r =? 0] => destruct (numberTicket r =? 0)
    end; discriminate.
  - unfold cancellation. rewrite Hfind.
    destruct (cancel_flag (place u)) as [flag|]; [|discriminate].
    destruct (flag =? 0); discriminate.
  - intros passCurrent passNew. unfold changePassword. rewrite Hfind.
    destruct (String.eqb passCurrent (password u)); discriminate.
Qed.

Lemma run_finds_current_user_witness :
  (exists u next, [alice] = u :: next /\
     username u = currentUser (mkGlobals loggedIn "alice" (disk (filing [alice] startup)))) /\
  checkTicket [alice] (mkGlobals loggedIn "alice" (disk (filing [alice] startup)))
    <> NullUser /\
  (forall code choice tickets,
     snd (booking [alice] code choice tickets
            (mkGlobals loggedIn "alice" (disk (filing [alice] startup))))
       <> BookingNoUser) /\
  snd (cancellation [alice] (mkGlobals loggedIn "alice" (disk (filing [alice] startup))))
    <> CancelUserNotFound /\
  (forall passCurrent passNew,
     snd (changePassword [alice] passCurrent passNew
            (mkGlobals loggedIn "alice" (disk (filing [alice] startup))))
       <> PasswordNoUser).
Proof.
  apply (run_finds_current_user
           [(1, mkConsole "alice" "pw1" "" "0" None "");
            (2, mkConsole "alice" "pw1" "" "0" None "")]
           [] startup); reflexivity.
Defined.

(** Closes the cases of [main_step] in which nothing happens or the
    program ends. *)
Ltac idle_case :=
  first [ discriminate
        | intros [= <- <-]; repeat split; intros; congruence ].

(** X18: the status changes only in two ways.  It goes from the menu
    to logged-in only through selection 2 with a successful [login], and
    the current user is then the username typed; it goes back to the menu
    only through selection 5, with the current user cleared.  Selection 1
    in the menu, registration, never logs in, and no operation of a
    logged-in user changes who is logged in. *)
Theorem main_step_status :
  forall (choice : Z) (c : console) (userptr : list user) (g : globals)
         (p : list user) (g' : globals),
    main_step choice c userptr g = Some (p, g') ->
    (currentStatus g = menu -> currentStatus g' = loggedIn ->
       choice = 2 /\
       snd (login userptr (typed_name c) (typed_pass c) g) = LoginSuccessful /\
       currentUser g' = typed_name c) /\
    (currentStatus g = loggedIn -> currentStatus g' = menu ->
       choice = 5 /\ currentUser g' = "") /\
    (currentStatus g = loggedIn -> currentStatus g' = loggedIn ->
       currentUser g' = currentUser g).
Proof.
  intros choice c userptr g p g'. unfold main_step.
  destruct (currentStatus g) eqn:Hstatus.
  - destruct choice as [|q|q]; try idle_case.
    do 3 (try (destruct q as [q|q|]; try idle_case)).
    + (* login *)
      destruct (login_globals userptr (typed_name c) (typed_pass c) g)
        as [Hok Hfail].
      destruct (login userptr (typed_name c) (typed_pass c) g) as [[p0 g0] r] eqn:E.
      simpl in Hok, Hfail. intros [= <- <-].
      split; [|split; intros; congruence].
      intros _ Hlogged. destruct r.
      * rewrite (Hok eq_refl). auto.
      * rewrite Hfail in Hlogged by discriminate. congruence.
      * rewrite Hfail in Hlogged by discriminate. congruence.
    + (* addUser *)
      unfold addUser. destruct (username_taken (typed_name c) userptr);
        intros [= <- <-]; repeat split; intros; simpl in *; congruence.
  - destruct choice as [|q|q]; try idle_case.
    do 3 (try (destruct q as [q|q|]; try idle_case)).
    + (* logout *)
      unfold logout. rewrite Hstatus.
      destruct (String.eqb (currentUser g) ""); simpl; intros [= <- <-];
        repeat split; intros; simpl in *; congruence.
    + (* cancellation *)
      unfold cancellation. destruct (find_user (currentUser g) userptr) as [u|];
        [|idle_case].
      destruct (cancel_flag (place u)) as [flag|]; [|idle_case].
      destruct (flag =? 0); intros [= <- <-]; repeat split; intros; simpl in *;
        congruence.
    + (* changePassword *)
      unfold changePassword. destruct (find_user (currentUser g) userptr) as [u|];
        [|idle_case].
      destruct (String.eqb (typed_pass c) (password u)); intros [= <- <-];
        repeat split; intros; simpl in *; congruence.
    + (* checkTicket *)
      destruct (checkTicket userptr g); idle_case.
    + (* booking *)
      unfold booking. destruct (find_user (currentUser g) userptr) as [u|];
        [|idle_case].
      destruct (negb (feq (price u) fzero)); [idle_case|].
      destruct (negb (Ascii.eqb (typed_choice c) "1")); [idle_case|].
      destruct (tour_of_code (typed_code c)) as [[tour_price tour_place]|];
        [|idle_case].
      match goal with
      | |- context [numberTicket ?r =? 0] => destruct (numberTicket r =? 0)
      end; intros [= <- <-]; repeat split; intros; simpl in *; congruence.
Qed.

Lemma main_step_status_witness :
  (currentStatus startup = menu ->
   currentStatus (mkGlobals loggedIn "alice" None) = loggedIn ->
     2 = 2 /\
     snd (login [bob; alice] "alice" "pw1" startup) = LoginSuccessful /\
     currentUser (mkGlobals loggedIn "alice" None) = "alice") /\
  (currentStatus startup = loggedIn ->
   currentStatus (mkGlobals loggedIn "alice" None) = menu ->
     2 = 5 /\ currentUser (mkGlobals loggedIn "alice" None) = "") /\
  (currentStatus startup = loggedIn ->
   currentStatus (mkGlobals loggedIn "alice" None) = loggedIn ->
     currentUser (mkGlobals loggedIn "alice" None) = currentUser startup).
Proof.
  apply (main_step_status 2 (mkConsole "alice" "pw1" "" "0" None "")
           [bob; alice] startup [alice] (mkGlobals loggedIn "alice" None)).
  reflexivity.
Defined.

(** ** What reaches the file after a login *)

(** X19: when a user who is not the first of the list logs in and then
    asks for a password change, whether the current password typed is
    right or wrong, the file is rewritten from that user's node onwards:
    the records that stood before it are no longer in [users.txt]. *)
Theorem login_then_changePassword_file :
  forall (c c' : console) (before : list user) (u : user) (after : list user)
         (g : globals),
    currentStatus g = menu ->
    username u = typed_name c -> password u = typed_pass c ->
    username_taken (typed_name c) before = false ->
    exists u' g',
      run [(2, c); (4, c')] (before ++ u :: after) g = Some (u' :: after, g') /\
      username u' = username u /\
      (typed_pass c' <> password u -> u' = u) /\
      disk g' = Some (file_text (u' :: after)).
Proof.
  intros c c' before u after g Hmenu Hname Hpass Hfree.
  destruct (login_stops_at_match before u after _ (typed_pass c) g Hname Hfree)
    as [Hnode Htag].
  rewrite Hpass, String.eqb_refl in Htag.
  destruct (login_globals (before ++ u :: after)
              (typed_name c) (typed_pass c) g) as [Hglobals _].
  specialize (Hglobals Htag).
  unfold run, main_step at 1. rewrite Hmenu.
  destruct (login (before ++ u :: after) (typed_name c) (typed_pass c) g)
    as [[p1 g1] r]. simpl in Hnode, Htag, Hglobals. subst p1 g1.
  unfold main_step, changePassword. simpl.
  rewrite Hname, String.eqb_refl.
  destruct (String.eqb (typed_pass c') (password u)) eqn:E.
  - eexists. eexists. split; [reflexivity|]. split; [exact Hname|].
    split; [|reflexivity]. intros Hdiff. apply String.eqb_eq in E. contradiction.
  - exists u. eexists. split; [reflexivity|]. auto.
Qed.

Lemma login_then_changePassword_file_witness :
  exists u' g',
    run [(2, mkConsole "alice" "pw1" "" "0" None "");
         (4, mkConsole "" "guess" "" "0" None "new")]
        ([bob] ++ alice :: [bob]) (filing [bob; alice; bob] startup)
      = Some (u' :: [bob], g') /\
    username u' = username alice /\
    (typed_pass (mkConsole "" "guess" "" "0" None "new") <> password alice -> u' = alice) /\
    disk g' = Some (file_text (u' :: [bob])).
Proof.
  apply (login_then_changePassword_file
           (mkConsole "alice" "pw1" "" "0" None "")
           (mkConsole "" "guess" "" "0" None "new")
           [bob] alice [bob] (filing [bob; alice; bob] startup)); reflexivity.
Defined.

(** X20: a login attempt with a username that no record carries leaves
    [main] with an empty list; a registration made next therefore writes
    a file that holds the new account alone, whatever accounts the list
    and the file held before. *)
Theorem unknown_login_then_addUser_file :
  forall (c c' : console) (userptr : list user) (g : globals),
    currentStatus g = menu ->
    username_taken (typed_name c) userptr = false ->
    run [(2, c); (1, c')] userptr g =
      Some ([new_user (typed_name c') (typed_pass c')],
            mkGlobals menu (currentUser g)
              (Some (record_line (new_user (typed_name c') (typed_pass c'))))).
Proof.
  intros c c' userptr g Hmenu Hfree.
  unfold run, main_step at 1. rewrite Hmenu.
  rewrite (login_no_match _ _ _ _ Hfree).
  unfold main_step. rewrite Hmenu. unfold addUser, filing, set_disk. simpl.
  rewrite Hmenu. repeat f_equal.
  generalize (record_line (new_user (typed_name c') (typed_pass c'))).
  induction s as [|a s IH]; simpl; [reflexivity | rewrite IH; reflexivity].
Qed.

Lemma unknown_login_then_addUser_file_witness :
  run [(2, mkConsole "carol" "pw3" "" "0" None "");
       (1, mkConsole "carol" "pw3" "" "0" None "")]
      [bob; alice] (filing [bob; alice] startup)
  = Some ([new_user "carol" "pw3"],
          mkGlobals menu "" (Some (record_line (new_user "carol" "pw3")))).
Proof.
  apply (unknown_login_then_addUser_file
           (mkConsole "carol" "pw3" "" "0" None "")
           (mkConsole "carol" "pw3" "" "0" None "")
           [bob; alice] (filing [bob; alice] startup)); reflexivity.
Defined.

(** ** Logging out *)

(** X21: after a successful [login] with a username that is not
    empty, [logout] returns to the menu state with the current user
    cleared and the file untouched, and a second [logout] is refused as
    [NotLoggedIn]. *)
Theorem logout_after_login :
  forall (userptr : list user) (name pass : string) (g : globals)
         (p : list user) (g1 : globals),
    name <> "" ->
    login userptr name pass g = (p, g1, LoginSuccessful) ->
    logout g1 = (mkGlobals menu "" (disk g), LoggedOut) /\
    logout (fst (logout g1)) = (mkGlobals menu "" (disk g), NotLoggedIn).
Proof.
  intros userptr name pass g p g1 Hname Hlogin.
  destruct (login_globals userptr name pass g) as [Hglobals _].
  rewrite Hlogin in Hglobals. simpl in Hglobals. rewrite (Hglobals eq_refl).
  unfold logout. simpl. apply String.eqb_neq in Hname. rewrite Hname. simpl.
  split; reflexivity.
Qed.

Lemma logout_after_login_witness :
  logout (mkGlobals loggedIn "alice" None) = (mkGlobals menu "" (disk startup), LoggedOut) /\
  logout (fst (logout (mkGlobals loggedIn "alice" None)))
    = (mkGlobals menu "" (disk startup), NotLoggedIn).
Proof.
  apply (logout_after_login [bob; alice] "alice" "pw1" startup [alice]
           (mkGlobals loggedIn "alice" None)).
  - discriminate.
  - reflexivity.
Defined.

(** ** Loading *)

Lemma scan_s_blank :
  forall text, skip_ws text = "" -> scan_s text = InputFail.
Proof.
  intros text H. unfold scan_s. rewrite H. reflexivity.
Qed.

(** X4: a missing file and an empty file load as the empty list, but
    a file that is not empty and holds white space only, a single line
    feed for instance, makes [initializeUser] return its pointer
    [tempptr] without ever having set it. *)
Theorem initializeUser_blank_file :
  forall (temp : user) (g : globals),
    (disk g = None \/ disk g = Some "" -> initializeUser [] temp g = Loaded []) /\
    (forall text,
       disk g = Some text -> text <> "" -> skip_ws text = "" ->
       initializeUser [] temp g = Uninitialised).
Proof.
  intros temp g. split.
  - unfold initializeUser. intros [-> | ->]; reflexivity.
  - intros text Hdisk Hne Hblank. unfold initializeUser. rewrite Hdisk.
    destruct text as [|a text]; [contradiction Hne; reflexivity|].
    cbn [read_users]. unfold fscanf_user.
    rewrite (scan_s_blank _ Hblank). reflexivity.
Qed.

(** X22: every line of the menu [showMenu] prints agrees with what
    [booking] charges: the line for the code [k] shows [k], then the
    destination and, after "- Rs ", the price that [booking] stores for
    the code [k]. *)
Theorem showMenu_agrees_with_booking :
  forall k, 1 <= k <= 10 ->
    exists tour_price tour_place pad,
      tour_of_code (fmt_d k) = Some (tour_price, tour_place) /\
      float_int_value tour_price = Some (nth (Z.to_nat (k - 1)) tour_prices 0) /\
      nth (Z.to_nat k) showMenu "" =
        fmt_d k ++ ". " ++ tour_place ++ blanks pad ++ "- Rs " ++
        fmt_d (nth (Z.to_nat (k - 1)) tour_prices 0) ++ newline.
Proof.
  intros k Hk.
  assert (H : k = 1 \/ k = 2 \/ k = 3 \/ k = 4 \/ k = 5 \/
              k = 6 \/ k = 7 \/ k = 8 \/ k = 9 \/ k = 10) by lia.
  destruct H as [->|[->|[->|[->|[->|[->|[->|[->|[->| ->]]]]]]]]];
    eexists; eexists.
  - exists 4%nat. repeat split.
  - exists 5%nat. repeat split.
  - exists 0%nat. repeat split.
  - exists 3%nat. repeat split.
  - exists 7%nat. repeat split.
  - exists 6%nat. repeat split.
  - exists 2%nat. repeat split.
  - exists 4%nat. repeat split.
  - exists 1%nat. repeat split.
  - exists 0%nat. repeat split.
Qed.

Lemma showMenu_agrees_with_booking_witness :
  exists tour_price tour_place pad,
    tour_of_code (fmt_d 9) = Some (tour_price, tour_place) /\
    float_int_value tour_price = Some (nth (Z.to_nat (9 - 1)) tour_prices 0) /\
    nth (Z.to_nat 9) showMenu "" =
      fmt_d 9 ++ ". " ++ tour_place ++ blanks pad ++ "- Rs " ++
      fmt_d (nth (Z.to_nat (9 - 1)) tour_prices 0) ++ newline.
Proof.
  apply (showMenu_agrees_with_booking 9). lia.
Defined.

Lemma initializeUser_blank_file_witness :
  initializeUser [] alice (mkGlobals menu "" (Some newline)) = Uninitialised.
Proof.
  apply (proj2 (initializeUser_blank_file alice (mkGlobals menu "" (Some newline)))
           newline); [reflexivity | discriminate | reflexivity].
Defined.

Lemma operations_keep_booking_invariant_witness :
  forallb booking_invariant
    (fst (fst (booking [alice; bob] "3" "1" (Some (-4)) (alice_session None)))) = true.
Proof.
  apply (operations_keep_booking_invariant [alice; bob] (alice_session None)).
  reflexivity.
Defined.

(** ** What a loaded list can hold *)

Lemma read_nonws_no_space :
  forall s, no_space (fst (read_nonws s)) = true.
Proof.
  induction s as [|c s IH]; simpl; [reflexivity|].
  destruct (isspace c) eqn:E; simpl; [reflexivity|].
  destruct (read_nonws s) as [w r]. simpl in *. rewrite E, IH. reflexivity.
Qed.

(** Whatever [%s] converts is a token. *)
Lemma scan_s_converts_token :
  forall s w r, scan_s s = Conv w r -> is_token w = true.
Proof.
  intros s w r. unfold scan_s.
  destruct (skip_ws s) as [|c r0] eqn:E; [discriminate|].
  pose proof (skip_ws_head _ _ _ E) as Hc.
  pose proof (read_nonws_no_space (String c r0)) as Hw.
  simpl in *. rewrite Hc in *.
  destruct (read_nonws r0) as [w' r']. intros [= <- _].
  unfold is_token. simpl in *. exact Hw.
Qed.

Lemma read_nonws_prefix :
  forall S sp B,
    isspace sp = true ->
    exists w X, read_nonws (S ++ String sp B) = (w, X ++ String sp B).
Proof.
  induction S as [|c S IH]; intros sp B Hsp; simpl.
  - rewrite Hsp. exists "", "". reflexivity.
  - destruct (isspace c).
    + exists "", (String c S). reflexivity.
    + destruct (IH sp B Hsp) as (w & X & ->). exists (String c w), X. reflexivity.
Qed.

(** A text with a visible character in front of a separator gives [%s]
    an item that ends before the separator. *)
Lemma scan_s_prefix :
  forall S sp B,
    skip_ws S <> "" -> isspace sp = true ->
    exists w X, scan_s (S ++ String sp B) = Conv w (X ++ String sp B).
Proof.
  induction S as [|c S IH]; intros sp B Hvisible Hsp.
  - contradiction Hvisible. reflexivity.
  - cbn [append]. destruct (isspace c) eqn:Hc.
    + rewrite (scan_s_space c _ Hc). apply IH; [|exact Hsp].
      simpl in Hvisible. rewrite Hc in Hvisible. exact Hvisible.
    + unfold scan_s. cbn [skip_ws]. rewrite Hc.
      destruct (read_nonws_prefix (String c S) sp B Hsp) as (w & X & Hread).
      cbn [append] in Hread. rewrite Hread. exists w, X. reflexivity.
Qed.

Lemma skip_ws_app_l :
  forall S T, skip_ws S <> "" -> skip_ws (S ++ T) <> "".
Proof.
  induction S as [|c S IH]; intros T H; simpl in *; [contradiction H; reflexivity|].
  destruct (isspace c); [apply IH; exact H | discriminate].
Qed.

Lemma skip_ws_app_r :
  forall S T, skip_ws T <> "" -> skip_ws (S ++ T) <> "".
Proof.
  induction S as [|c S IH]; intros T H; simpl; [exact H|].
  destruct (isspace c); [apply IH; exact H | discriminate].
Qed.

Lemma dec_of_nonneg_visible :
  forall n, skip_ws (dec_of_nonneg n) <> "".
Proof.
  intros n. unfold dec_of_nonneg.
  destruct (dec_digits_head (S (Z.to_nat (Z.log2 n))) n "" ltac:(lia))
    as (d & tail & Hd & ->).
  destruct (digit_char_spec d Hd) as (_ & _ & Hsp & _).
  simpl. rewrite Hsp. discriminate.
Qed.

Lemma fmt_d_visible : forall n, skip_ws (fmt_d n) <> "".
Proof.
  intros n. unfold fmt_d. destruct (n <? 0); [discriminate|].
  apply dec_of_nonneg_visible.
Qed.

Lemma fmt_f_visible : forall x, skip_ws (fmt_f x) <> "".
Proof.
  intros [s|s| |s m e]; simpl; try (destruct s; discriminate); try discriminate.
  destruct s; [discriminate|]. cbn [append].
  apply skip_ws_app_l, dec_of_nonneg_visible.
Qed.

(** The text fields of the node made from one [fscanf]: the username is
    a token; the password and the place are tokens or what [temp] held
    before. *)
Lemma fscanf_user_fields :
  forall inp temp n temp' rest,
    fscanf_user inp temp = (Assigned n, temp', rest) ->
    is_token (username temp') = true /\
    (is_token (password temp') = true \/ password temp' = password temp) /\
    (is_token (place temp') = true \/ place temp' = place temp).
Proof.
  intros inp temp n temp' rest. unfold fscanf_user.
  destruct (scan_s inp) as [w1 r1|r1|] eqn:E1; [|intros [= _ <- _]|discriminate].
  2: { pose proof (scan_s_length inp) as H. rewrite E1 in H. contradiction. }
  pose proof (scan_s_converts_token _ _ _ E1) as T1.
  destruct (scan_s (skip_ws r1)) as [w2 r2|r2|] eqn:E2;
    [|intros [= _ <- _]; simpl; auto|intros [= _ <- _]; simpl; auto].
  pose proof (scan_s_converts_token _ _ _ E2) as T2.
  destruct (scan_s (skip_ws r2)) as [w3 r3|r3|] eqn:E3;
    [|intros [= _ <- _]; simpl; auto|intros [= _ <- _]; simpl; auto].
  pose proof (scan_s_converts_token _ _ _ E3) as T3.
  destruct (scan_f (skip_ws r3)) as [x r4|r4|];
    [|intros [= _ <- _]; simpl; auto|intros [= _ <- _]; simpl; auto].
  destruct (scan_d (skip_ws r4)) as [k r5|r5|];
    intros [= _ <- _]; simpl; auto.
Qed.

Lemma read_users_fields :
  forall fuel inp temp nodes,
    read_users fuel inp temp = Some nodes ->
    Forall (fun u =>
              is_token (username u) = true /\
              (is_token (password u) = true \/ password u = password temp) /\
              (is_token (place u) = true \/ place u = place temp)) nodes.
Proof.
  induction fuel as [|fuel IH]; intros inp temp nodes; simpl; [discriminate|].
  destruct (fscanf_user inp temp) as [[count temp'] rest] eqn:E.
  destruct count as [|n]; [intros [= <-]; constructor|].
  destruct (fscanf_user_fields _ _ _ _ _ E) as (Hu & Hp & Hl).
  destruct (read_users fuel rest temp') as [tail|] eqn:Etail; [|discriminate].
  intros [= <-]. constructor; [auto|].
  specialize (IH _ _ _ Etail).
  eapply Forall_impl; [|exact IH].
  intros v (Hvu & Hvp & Hvl). split; [exact Hvu|]. split.
  - destruct Hvp as [Hvp|Hvp]; [auto|]. rewrite Hvp. exact Hp.
  - destruct Hvl as [Hvl|Hvl]; [auto|]. rewrite Hvl. exact Hl.
Qed.

(** The first [fscanf] on the line written for a record whose username
    is a token converts a password and a place. *)
Lemma fscanf_user_first_line :
  forall u rest temp count temp' rest',
    is_token (username u) = true ->
    fscanf_user (record_line u ++ rest) temp = (count, temp', rest') ->
    is_token (password temp') = true /\ is_token (place temp') = true.
Proof.
  intros [name pass dest x n] rest temp count temp' rest' Hname.
  simpl in Hname.
  assert (Hline : record_line (mkUser name pass dest x n) ++ rest =
                  name ++ String " " (pass ++ String " " (dest ++ String " "
                    (fmt_f x ++ String " " (fmt_d n ++ String "010" rest))))).
  { unfold record_line, newline. cbn [username password place price numberTicket].
    repeat (rewrite append_assoc; cbn [append]). reflexivity. }
  rewrite Hline. unfold fscanf_user.
  rewrite (scan_s_token name " " _ Hname eq_refl).
  rewrite scan_s_skip_ws.
  destruct (scan_s_prefix
              (String " " (pass ++ String " " (dest ++ String " " (fmt_f x))))
              " " (fmt_d n ++ String "010" rest)) as (w2 & X2 & E2).
  { cbn [skip_ws]. change (isspace " ") with true. cbv iota.
    apply skip_ws_app_r. cbn [skip_ws]. change (isspace " ") with true. cbv iota.
    apply skip_ws_app_r. cbn [skip_ws]. change (isspace " ") with true. cbv iota.
    apply fmt_f_visible. }
  { reflexivity. }
  replace (String " " (pass ++ String " " (dest ++ String " "
             (fmt_f x ++ String " " (fmt_d n ++ String "010" rest)))))
    with (String " " (pass ++ String " " (dest ++ String " " (fmt_f x)))
          ++ String " " (fmt_d n ++ String "010" rest))
    by (cbn [append]; repeat (rewrite append_assoc; cbn [append]); reflexivity).
  rewrite E2.
  pose proof (scan_s_converts_token _ _ _ E2) as T2.
  rewrite scan_s_skip_ws.
  destruct (scan_s_prefix (X2 ++ String " " (fmt_d n)) "010" rest) as (w3 & X3 & E3).
  { apply skip_ws_app_r. cbn [skip_ws]. change (isspace " ") with true. cbv iota.
    apply fmt_d_visible. }
  { reflexivity. }
  replace (X2 ++ String " " (fmt_d n ++ String "010" rest))
    with ((X2 ++ String " " (fmt_d n)) ++ String "010" rest)
    by (rewrite append_assoc; reflexivity).
  rewrite E3.
  pose proof (scan_s_converts_token _ _ _ E3) as T3.
  destruct (scan_f (skip_ws (X3 ++ String "010" rest))) as [y r4|r4|];
    [|intros [= _ <- _]; simpl; auto|intros [= _ <- _]; simpl; auto].
  destruct (scan_d (skip_ws r4)) as [k r5|r5|]; intros [= _ <- _]; simpl; auto.
Qed.

Lemma destination_not_token :
  forall p, is_destination p = true -> is_token p = false.
Proof.
  intros p. unfold is_destination, placeList, existsb.
  repeat match goal with
         | |- context [String.eqb p ?lit] =>
             destruct (String.eqb_spec p lit) as [->|_]; [reflexivity|]
         end.
  discriminate.
Qed.

(** X2: saving a list and loading the file gives the list back only
    if the username, the password and the place of every record are
    tokens, not empty and free of white space; so a list with a record
    booked for one of the ten destinations, whose names all have a blank,
    is never read back as it was saved, whatever the local [temp] held. *)
Theorem save_load_only_tokens :
  forall (userptr : list user) (temp : user) (g : globals),
    initializeUser [] temp (filing userptr g) = Loaded userptr ->
    Forall (fun u =>
              is_token (username u) = true /\
              is_token (password u) = true /\
              is_token (place u) = true /\
              is_destination (place u) = false) userptr.
Proof.
  intros userptr temp g. unfold initializeUser, filing, set_disk. simpl disk.
  assert (Hdest : forall p, is_token p = true -> is_destination p = false).
  { intros p Hp. destruct (is_destination p) eqn:E; [|reflexivity].
    rewrite (destination_not_token p E) in Hp. discriminate. }
  destruct userptr as [|u next]; [constructor|].
  destruct (file_text (u :: next)) as [|c text] eqn:Htext; [discriminate|].
  rewrite <- Htext.
  destruct (read_users (S (String.length (file_text (u :: next))))
              (file_text (u :: next)) temp) as [nodes|] eqn:Hread; [|discriminate].
  destruct nodes as [|v tail]; [discriminate|]. intros [= -> ->].
  cbn [read_users file_text] in Hread.
  destruct (fscanf_user (record_line u ++ file_text next) temp)
    as [[count temp'] rest] eqn:E.
  destruct count as [|n]; [discriminate|].
  destruct (read_users _ rest temp') as [tail|] eqn:Etail; [|discriminate].
  injection Hread as -> ->.
  destruct (fscanf_user_fields _ _ _ _ _ E) as (Hname & _ & _).
  destruct (fscanf_user_first_line _ _ _ _ _ _ Hname E) as (Hpass & Hplace).
  constructor; [auto|].
  eapply Forall_impl; [|exact (read_users_fields _ _ _ _ Etail)].
  intros w (Hwu & Hwp & Hwl).
  assert (Hp : is_token (password w) = true)
    by (destruct Hwp as [Hwp|Hwp]; [exact Hwp | rewrite Hwp; exact Hpass]).
  assert (Hl : is_token (place w) = true)
    by (destruct Hwl as [Hwl|Hwl]; [exact Hwl | rewrite Hwl; exact Hplace]).
  auto.
Qed.

Lemma save_load_only_tokens_witness :
  Forall (fun u =>
            is_token (username u) = true /\
            is_token (password u) = true /\
            is_token (place u) = true /\
            is_destination (place u) = false) [bob; alice].
Proof.
  apply (save_load_only_tokens [bob; alice] alice_bangkok startup).
  reflexivity.
Defined.
